(** * BrandBlast 2.0 - The Campaign Copilot

    A shallow embedding of [src/index.tsx]: the state held by the [App]
    component, its three asynchronous handlers ([getMarketingAngles],
    [generateCampaignAssets], [generateBannerVariation]), the conditions under
    which the page renders and enables their buttons, and the properties of
    the stage orchestration that follow from them.

    An asynchronous handler is split where it awaits the generative service:
    the part that runs at the click ([..._start]) returns the state after its
    setter calls together with the requests it dispatches, and the part that
    runs when the awaited promise settles ([..._finish]) takes the outcome of
    the call.  The continuations of the source only call setters with values
    computed from the outcome, so they act on whatever the state is when they
    run. *)

From Stdlib Require Import String Ascii List ZArith Bool Lia.
Import ListNotations.
Local Open Scope string_scope.
Local Open Scope Z_scope.

(** ** JavaScript values *)

(** [!s] on a string is true exactly for the empty string. *)
Definition truthy (s : string) : bool :=
  match s with
  | EmptyString => false
  | String _ _ => true
  end.

(** [!v] on a [string | null] value: [null] and the empty string are falsy. *)
Definition truthy_opt (v : option string) : bool :=
  match v with
  | None => false
  | Some s => truthy s
  end.

(** An object-or-null value is truthy exactly when it is an object. *)
Definition present {A : Type} (v : option A) : bool :=
  match v with
  | None => false
  | Some _ => true
  end.

(** [s.startsWith(p)]. *)
Fixpoint startsWith (p s : string) : bool :=
  match p, s with
  | EmptyString, _ => true
  | String _ _, EmptyString => false
  | String a p', String b s' => Ascii.eqb a b && startsWith p' s'
  end.

(** [s.includes(p)]: [p] occurs in [s] at some position. *)
Fixpoint includes (s p : string) : bool :=
  startsWith p s ||
  match s with
  | EmptyString => false
  | String _ s' => includes s' p
  end.

(** The double-quote character used inside two of the source's messages. *)
Definition dquote : string := String (ascii_of_nat 34) EmptyString.

(** What a [try] block can catch in this program. *)
Inductive Thrown : Type :=
| ServiceError                 (* the promise of ai.models.generateContent rejected *)
| SyntaxError                  (* JSON.parse could not read the response text *)
| Error (message : string).    (* throw new Error(message) *)

(** The result of evaluating an awaited expression. *)
Inductive Outcome (A : Type) : Type :=
| Returned (a : A)
| Threw (e : Thrown).
Arguments Returned {A} a.
Arguments Threw {A} e.

Definition returned {A : Type} (o : Outcome A) : bool :=
  match o with
  | Returned _ => true
  | Threw _ => false
  end.

(** ** State interfaces *)

Module MarketingAngle.
Record t : Type := mk { title : string; description : string }.
End MarketingAngle.

(** A value that [JSON.parse] can return.  A number is kept as its literal. *)
#[warnings="-register-all"] Inductive Json : Type :=
| JNull
| JBool (b : bool)
| JNumber (literal : string)
| JString (s : string)
| JArray (items : list Json)
| JObject (members : list (string * Json)).

(** [text: string | string[]] is the declared type of an asset text.  What is
    stored is the awaited text of a response or what [JSON.parse] returned
    for it, unchecked, so the field can hold any such value. *)
Definition AssetText : Type := Json.

(** A single string. *)
Definition Single (s : string) : AssetText := JString s.

(** An array of strings, the headlines. *)
Definition Headlines (lines : list string) : AssetText := JArray (map JString lines).

(** [Array.isArray(asset.text)], line 343. *)
Definition isArray (v : AssetText) : bool :=
  match v with
  | JArray _ => true
  | _ => false
  end.

Module CampaignAsset.
Record t : Type := mk { title : string; image : string; text : AssetText }.
End CampaignAsset.

(** The component state, one field per [useState]. *)
Record AppState : Type := mkApp {
  productPhoto : option string;
  productName : string;
  targetAudience : string;
  desiredVibe : string;
  marketingAngles : list MarketingAngle.t;
  selectedAngle : option MarketingAngle.t;
  campaignAssets : list CampaignAsset.t;
  bannerVariationPrompt : string;
  editedBanner : option string;
  isLoading : bool;
  loadingMessage : string;
  currentStep : Z;
  error : option string
}.

Definition initialState : AppState :=
  {| productPhoto := None; productName := EmptyString;
     targetAudience := EmptyString; desiredVibe := EmptyString;
     marketingAngles := []; selectedAngle := None; campaignAssets := [];
     bannerVariationPrompt := EmptyString; editedBanner := None;
     isLoading := false; loadingMessage := EmptyString;
     currentStep := 1; error := None |}.

(** *** Setters *)

Definition setProductPhoto (v : option string) (s : AppState) : AppState :=
  mkApp v (productName s) (targetAudience s) (desiredVibe s)
    (marketingAngles s) (selectedAngle s) (campaignAssets s)
    (bannerVariationPrompt s) (editedBanner s) (isLoading s)
    (loadingMessage s) (currentStep s) (error s).

Definition setProductName (v : string) (s : AppState) : AppState :=
  mkApp (productPhoto s) v (targetAudience s) (desiredVibe s)
    (marketingAngles s) (selectedAngle s) (campaignAssets s)
    (bannerVariationPrompt s) (editedBanner s) (isLoading s)
    (loadingMessage s) (currentStep s) (error s).

Definition setTargetAudience (v : string) (s : AppState) : AppState :=
  mkApp (productPhoto s) (productName s) v (desiredVibe s)
    (marketingAngles s) (selectedAngle s) (campaignAssets s)
    (bannerVariationPrompt s) (editedBanner s) (isLoading s)
    (loadingMessage s) (currentStep s) (error s).

Definition setDesiredVibe (v : string) (s : AppState) : AppState :=
  mkApp (productPhoto s) (productName s) (targetAudience s) v
    (marketingAngles s) (selectedAngle s) (campaignAssets s)
    (bannerVariationPrompt s) (editedBanner s) (isLoading s)
    (loadingMessage s) (currentStep s) (error s).

Definition setMarketingAngles (v : list MarketingAngle.t) (s : AppState) : AppState :=
  mkApp (productPhoto s) (productName s) (targetAudience s) (desiredVibe s)
    v (selectedAngle s) (campaignAssets s)
    (bannerVariationPrompt s) (editedBanner s) (isLoading s)
    (loadingMessage s) (currentStep s) (error s).

Definition setSelectedAngle (v : option MarketingAngle.t) (s : AppState) : AppState :=
  mkApp (productPhoto s) (productName s) (targetAudience s) (desiredVibe s)
    (marketingAngles s) v (campaignAssets s)
    (bannerVariationPrompt s) (editedBanner s) (isLoading s)
    (loadingMessage s) (currentStep s) (error s).

Definition setCampaignAssets (v : list CampaignAsset.t) (s : AppState) : AppState :=
  mkApp (productPhoto s) (productName s) (targetAudience s) (desiredVibe s)
    (marketingAngles s) (selectedAngle s) v
    (bannerVariationPrompt s) (editedBanner s) (isLoading s)
    (loadingMessage s) (currentStep s) (error s).

Definition setBannerVariationPrompt (v : string) (s : AppState) : AppState :=
  mkApp (productPhoto s) (productName s) (targetAudience s) (desiredVibe s)
    (marketingAngles s) (selectedAngle s) (campaignAssets s)
    v (editedBanner s) (isLoading s)
    (loadingMessage s) (currentStep s) (error s).

Definition setEditedBanner (v : option string) (s : AppState) : AppState :=
  mkApp (productPhoto s) (productName s) (targetAudience s) (desiredVibe s)
    (marketingAngles s) (selectedAngle s) (campaignAssets s)
    (bannerVariationPrompt s) v (isLoading s)
    (loadingMessage s) (currentStep s) (error s).

Definition setIsLoading (v : bool) (s : AppState) : AppState :=
  mkApp (productPhoto s) (productName s) (targetAudience s) (desiredVibe s)
    (marketingAngles s) (selectedAngle s) (campaignAssets s)
    (bannerVariationPrompt s) (editedBanner s) v
    (loadingMessage s) (currentStep s) (error s).

Definition setLoadingMessage (v : string) (s : AppState) : AppState :=
  mkApp (productPhoto s) (productName s) (targetAudience s) (desiredVibe s)
    (marketingAngles s) (selectedAngle s) (campaignAssets s)
    (bannerVariationPrompt s) (editedBanner s) (isLoading s)
    v (currentStep s) (error s).

Definition setCurrentStep (v : Z) (s : AppState) : AppState :=
  mkApp (productPhoto s) (productName s) (targetAudience s) (desiredVibe s)
    (marketingAngles s) (selectedAngle s) (campaignAssets s)
    (bannerVariationPrompt s) (editedBanner s) (isLoading s)
    (loadingMessage s) v (error s).

Definition setError (v : option string) (s : AppState) : AppState :=
  mkApp (productPhoto s) (productName s) (targetAudience s) (desiredVibe s)
    (marketingAngles s) (selectedAngle s) (campaignAssets s)
    (bannerVariationPrompt s) (editedBanner s) (isLoading s)
    (loadingMessage s) (currentStep s) v.

(** Setter calls are written in the order of the source. *)
Notation "s |> f" := (f s) (at level 45, left associativity, only parsing).

(** ** The generative service *)

(** [Type.ARRAY] of angle objects (line 60) or of strings (line 99). *)
Inductive Schema : Type :=
| AngleArray
| StringArray.

(** The two shapes of [ai.models.generateContent] calls.  An image request
    lists the data URLs its inline parts are cut from, in order, then its
    text part. *)
Inductive Request : Type :=
| TextRequest (contents : string) (responseSchema : option Schema)
| ImageRequest (references : list string) (textPart : string).

(** The [text] of a response and what [JSON.parse] returns for it ([None]: it
    throws).  For the campaign texts [J] is [Json], any value.  For the
    angles [J] is the declared type of the state they are stored in,
    [MarketingAngle[]]. *)
Record TextResponse (J : Type) : Type :=
  mkText { text : string; parsed : option J }.
Arguments mkText {J} text parsed.
Arguments text {J} t.
Arguments parsed {J} t.

Record Blob : Type := mkBlob { data : string; mimeType : string }.

(** A content part of [response.candidates[0].content.parts]. *)
Record Part : Type := mkPart { inlineData : option Blob; partText : option string }.

Definition JSON_parse {J : Type} (r : TextResponse J) : Outcome J :=
  match parsed r with
  | Some v => Returned v
  | None => Threw SyntaxError
  end.

(** The loop of lines 129-135 and 231-237: the value of [newImageBase64]
    when it ends, [None] for [null]. *)
Fixpoint newImageBase64 (parts : list Part) : option string :=
  match parts with
  | [] => None
  | part :: rest =>
      match inlineData part with
      | Some blob => Some (data blob)
      | None => newImageBase64 rest
      end
  end.

Definition pngDataUrl (base64 : string) : string :=
  "data:image/png;base64," ++ base64.

Definition noImageMessage (prompt : string) : string :=
  "The model did not return an image for the prompt: " ++ dquote ++ prompt ++ dquote.

(** [generateImage], lines 129-141: what it does with the parts of a response. *)
Definition generateImage_result (prompt : string) (parts : list Part) : Outcome string :=
  match newImageBase64 parts with
  | Some base64 =>
      if truthy base64 then Returned (pngDataUrl base64)
      else Threw (Error (noImageMessage prompt))
  | None => Threw (Error (noImageMessage prompt))
  end.

(** [generateImage], lines 105-127: the request, unless the photo is missing. *)
Definition generateImage_request (photo : option string) (prompt : string) : Outcome Request :=
  match photo with
  | Some p =>
      if truthy p then Returned (ImageRequest [p] prompt)
      else Threw (Error "Product photo is required for image generation.")
  | None => Threw (Error "Product photo is required for image generation.")
  end.

(** [generateImage] as a whole, given how the service call settles. *)
Definition generateImage (photo : option string) (prompt : string)
    (response : Outcome (list Part)) : Outcome string :=
  match generateImage_request photo prompt with
  | Threw e => Threw e
  | Returned _ =>
      match response with
      | Threw e => Threw e
      | Returned parts => generateImage_result prompt parts
      end
  end.

Definition generateText_request (prompt : string) (expectJson : bool) : Request :=
  TextRequest prompt (if expectJson then Some StringArray else None).

(** [generateText], lines 95-103. *)
Definition generateText (expectJson : bool)
    (response : Outcome (TextResponse Json)) : Outcome AssetText :=
  match response with
  | Threw e => Threw e
  | Returned result =>
      if expectJson then JSON_parse result
      else Returned (Single (text result))
  end.

(** ** Step 1 -> 2: marketing angles *)

Definition anglesPrompt (s : AppState) : string :=
  "For a product named " ++ dquote ++ productName s ++ dquote ++
  " targeting " ++ dquote ++ targetAudience s ++ dquote ++
  " with a desired vibe of " ++ dquote ++ desiredVibe s ++ dquote ++
  ", suggest 3 distinct marketing campaign angles. For each angle, provide a short, catchy title and a one-sentence description.".

(** [getMarketingAngles] up to its [await]. *)
Definition getMarketingAngles_start (s : AppState) : AppState * list Request :=
  if negb (truthy (productName s)) || negb (truthy (targetAudience s))
     || negb (truthy (desiredVibe s))
  then (s, [])
  else
    (s |> setIsLoading true
       |> setLoadingMessage "Brainstorming strategic angles..."
       |> setError None
       |> setMarketingAngles []
       |> setSelectedAngle None
       |> setCampaignAssets []
       |> setEditedBanner None,
     [TextRequest (anglesPrompt s) (Some AngleArray)]).

(** Lines 55-74: the awaited response, read by [JSON.parse]. *)
Definition parsedAngles (response : Outcome (TextResponse (list MarketingAngle.t)))
    : Outcome (list MarketingAngle.t) :=
  match response with
  | Threw e => Threw e
  | Returned r => JSON_parse r
  end.

(** [getMarketingAngles] from the point where its call settles. *)
Definition getMarketingAngles_finish
    (response : Outcome (TextResponse (list MarketingAngle.t)))
    (s : AppState) : AppState :=
  match parsedAngles response with
  | Returned angles => s |> setMarketingAngles angles |> setCurrentStep 2
  | Threw _ => s |> setError (Some "Failed to suggest angles. Please try again.")
  end |> setIsLoading false.

(** ** Step 2 -> 3: the full campaign *)

(** The six prompts of lines 147-154, built from the state of the click and
    the angle selected in it. *)
Record CampaignPrompts : Type := mkPrompts {
  instagramImagePrompt : string;
  instagramTextPrompt : string;
  facebookImagePrompt : string;
  facebookTextPrompt : string;
  bannerImagePrompt : string;
  bannerTextPrompt : string
}.

Definition campaignPrompts (s : AppState) (angle : MarketingAngle.t) : CampaignPrompts :=
  {| instagramImagePrompt :=
       "A high-quality, photorealistic lifestyle photo for Instagram. The uploaded product shot is seamlessly integrated into a scene with a '"
       ++ desiredVibe s ++ "' vibe. The scene reflects the marketing angle: '"
       ++ MarketingAngle.title angle ++ "'. The target audience is "
       ++ targetAudience s ++ ".";
     instagramTextPrompt :=
       "Based on the campaign angle '" ++ MarketingAngle.title angle
       ++ "', write an engaging Instagram caption for the product "
       ++ productName s ++ ". Include 3 relevant hashtags and a call-to-action.";
     facebookImagePrompt :=
       "A photorealistic Facebook ad image. It features the uploaded product in a social scene with people who match the description of '"
       ++ targetAudience s ++ "'. The overall vibe is '" ++ desiredVibe s
       ++ "' and aligns with the marketing angle: '"
       ++ MarketingAngle.title angle ++ "'.";
     facebookTextPrompt :=
       "Write a short, persuasive copy for a Facebook ad for " ++ productName s
       ++ ". The ad should highlight the benefits based on our campaign angle: '"
       ++ MarketingAngle.title angle ++ "'. Start with a compelling hook.";
     bannerImagePrompt :=
       "A graphic web banner. Isolate the uploaded product on a stylized background that matches a '"
       ++ desiredVibe s ++ "' style. Add the text '" ++ productName s
       ++ "' directly onto the banner in a visually appealing and clear way.";
     bannerTextPrompt :=
       "Generate 3 short and punchy headline variations for a web banner about "
       ++ productName s ++ ", inspired by the angle: '"
       ++ MarketingAngle.title angle ++ "'." |}.

(** What the continuation of [generateCampaignAssets] keeps from the render
    it was created in. *)
Record CampaignClosure : Type := mkClosure {
  closurePhoto : option string;
  closurePrompts : CampaignPrompts
}.

(** How the six service calls of [Promise.all] settle, in the order of the
    array of line 156. *)
Record CampaignResponses : Type := mkResponses {
  instagramImageResponse : Outcome (list Part);
  instagramTextResponse : Outcome (TextResponse Json);
  facebookImageResponse : Outcome (list Part);
  facebookTextResponse : Outcome (TextResponse Json);
  bannerImageResponse : Outcome (list Part);
  bannerTextResponse : Outcome (TextResponse Json)
}.

(** The requests a call of [generateImage] sends: none when it throws first. *)
Definition imageRequests (photo : option string) (prompt : string) : list Request :=
  match generateImage_request photo prompt with
  | Returned q => [q]
  | Threw _ => []
  end.

(** [generateCampaignAssets] up to the [await] of [Promise.all]. *)
Definition generateCampaignAssets_start (s : AppState)
    : AppState * option CampaignClosure * list Request :=
  match selectedAngle s with
  | None => (s, None, [])
  | Some angle =>
      if negb (truthy (productName s)) || negb (truthy_opt (productPhoto s))
      then (s, None, [])
      else
        let p := campaignPrompts s angle in
        (s |> setIsLoading true
           |> setLoadingMessage "Generating your full campaign assets..."
           |> setError None
           |> setCampaignAssets []
           |> setEditedBanner None,
         Some (mkClosure (productPhoto s) p),
         (imageRequests (productPhoto s) (instagramImagePrompt p)
          ++ [generateText_request (instagramTextPrompt p) false]
          ++ imageRequests (productPhoto s) (facebookImagePrompt p)
          ++ [generateText_request (facebookTextPrompt p) false]
          ++ imageRequests (productPhoto s) (bannerImagePrompt p)
          ++ [generateText_request (bannerTextPrompt p) true])%list)
  end.

(** [Promise.all] over the six promises: the six values when every promise is
    fulfilled, and a rejection as soon as one is rejected.  The [catch] of
    line 173 only logs the reason, which is not kept here. *)
Definition promiseAll6 {A B C D E F : Type}
    (a : Outcome A) (b : Outcome B) (c : Outcome C)
    (d : Outcome D) (e : Outcome E) (f : Outcome F)
    : option (A * B * C * D * E * F) :=
  match a, b, c, d, e, f with
  | Returned va, Returned vb, Returned vc, Returned vd, Returned ve, Returned vf =>
      Some (va, vb, vc, vd, ve, vf)
  | _, _, _, _, _, _ => None
  end.

(** The six sub-calls of line 156, each with the response of its service call. *)
Definition campaignResults (c : CampaignClosure) (r : CampaignResponses)
    : option (string * AssetText * string * AssetText * string * AssetText) :=
  let p := closurePrompts c in
  promiseAll6
    (generateImage (closurePhoto c) (instagramImagePrompt p) (instagramImageResponse r))
    (generateText false (instagramTextResponse r))
    (generateImage (closurePhoto c) (facebookImagePrompt p) (facebookImageResponse r))
    (generateText false (facebookTextResponse r))
    (generateImage (closurePhoto c) (bannerImagePrompt p) (bannerImageResponse r))
    (generateText true (bannerTextResponse r)).

(** [generateCampaignAssets] from the point where [Promise.all] settles. *)
Definition generateCampaignAssets_finish (c : CampaignClosure)
    (r : CampaignResponses) (s : AppState) : AppState :=
  match campaignResults c r with
  | Some (instagramImage, instagramText, facebookImage, facebookText,
          bannerImage, bannerText) =>
      s |> setCampaignAssets
             [ CampaignAsset.mk "Instagram Lifestyle Post" instagramImage instagramText;
               CampaignAsset.mk "Facebook Ad (Focus on People)" facebookImage facebookText;
               CampaignAsset.mk "Web Banner (Graphic & Direct)" bannerImage bannerText ]
        |> setCurrentStep 3
  | None => s |> setError (Some "Failed to generate the campaign. Please try again.")
  end |> setIsLoading false.

(** ** Step 4: banner variation *)

(** [a => a.title.includes('Web Banner')]. *)
Definition isWebBanner (a : CampaignAsset.t) : bool :=
  includes (CampaignAsset.title a) "Web Banner".

(** [generateBannerVariation] up to its [await]. *)
Definition generateBannerVariation_start (s : AppState) : AppState * list Request :=
  if negb (truthy (bannerVariationPrompt s)) then (s, [])
  else
    match find isWebBanner (campaignAssets s) with
    | None =>
        (s |> setError (Some "Original banner not found. Please generate a campaign first."), [])
    | Some originalBanner =>
        match productPhoto s with
        | Some photo =>
            if truthy photo then
              (s |> setIsLoading true
                 |> setLoadingMessage "Generating variation..."
                 |> setError None
                 |> setEditedBanner None,
               [ImageRequest [photo; CampaignAsset.image originalBanner]
                             (bannerVariationPrompt s)])
            else
              (s |> setError (Some "Original product photo not found. Please ensure it is still loaded in Step 1."), [])
        | None =>
            (s |> setError (Some "Original product photo not found. Please ensure it is still loaded in Step 1."), [])
        end
    end.

(** [generateBannerVariation] from the point where its call settles. *)
Definition generateBannerVariation_finish (response : Outcome (list Part))
    (s : AppState) : AppState :=
  match response with
  | Returned parts =>
      match newImageBase64 parts with
      | Some base64 =>
          if truthy base64 then s |> setEditedBanner (Some (pngDataUrl base64))
          else s |> setError (Some "The model did not return an edited image. Please try a different prompt.")
      | None => s |> setError (Some "The model did not return an edited image. Please try a different prompt.")
      end
  | Threw _ => s |> setError (Some "Failed to generate banner variation. Please try again.")
  end |> setIsLoading false.

(** ** What the page renders and enables *)

(** Line 263. *)
Definition isStep1Complete (s : AppState) : bool :=
  truthy_opt (productPhoto s) && truthy (productName s)
  && truthy (targetAudience s) && truthy (desiredVibe s).

(** [disabled] of the button of line 302. *)
Definition suggestAngles_disabled (s : AppState) : bool :=
  negb (isStep1Complete s) || (isLoading s && (currentStep s =? 1)).

(** Line 307: [currentStep >= 2]. *)
Definition step2_rendered (s : AppState) : bool := 2 <=? currentStep s.

(** Line 322: the campaign button is there when there are angles. *)
Definition generateCampaign_rendered (s : AppState) : bool :=
  step2_rendered s && negb (Nat.eqb (length (marketingAngles s)) 0).

(** [disabled] of the button of line 323. *)
Definition generateCampaign_disabled (s : AppState) : bool :=
  negb (present (selectedAngle s)) || (isLoading s && (currentStep s =? 2)).

(** Line 330: steps 3 and 4 are shown together. *)
Definition step4_rendered (s : AppState) : bool :=
  (currentStep s =? 3) && negb (Nat.eqb (length (campaignAssets s)) 0).

(** [disabled] of the button of line 376. *)
Definition generateVariation_disabled (s : AppState) : bool :=
  negb (truthy (bannerVariationPrompt s)) || isLoading s.

(** ** The page as a transition system *)

(** A handler that is suspended at its [await]. *)
Inductive Pending : Type :=
| AnglesPending
| CampaignPending (c : CampaignClosure)
| VariationPending.

Record Page : Type := mkPage {
  app : AppState;
  inFlight : list Pending
}.

Definition initialPage : Page := {| app := initialState; inFlight := [] |}.

(** How the service answers a suspended handler. *)
Inductive Settlement : Type :=
| AnglesSettled (r : Outcome (TextResponse (list MarketingAngle.t)))
| CampaignSettled (r : CampaignResponses)
| VariationSettled (r : Outcome (list Part)).

Inductive Event : Type :=
| ChangeProductName (v : string)
| ChangeTargetAudience (v : string)
| ChangeDesiredVibe (v : string)
| PhotoLoadEnd (result : option string)       (* reader.onloadend, line 256 *)
| ChangeBannerVariationPrompt (v : string)
| ClickAngleCard (index : nat)
| ClickSuggestAngles
| ClickGenerateCampaign
| ClickGenerateVariation
| Settle (index : nat) (o : Settlement).      (* the index-th suspended handler resumes *)

Fixpoint removeNth {A : Type} (n : nat) (l : list A) : list A :=
  match n, l with
  | _, [] => []
  | O, _ :: rest => rest
  | S n', x :: rest => x :: removeNth n' rest
  end.

(** The effect of an event, [None] when the page does not offer it: the
    control is not rendered or is disabled, or no such handler is suspended. *)
Definition step (e : Event) (p : Page) : option Page :=
  let s := app p in
  match e with
  | ChangeProductName v => Some (mkPage (setProductName v s) (inFlight p))
  | ChangeTargetAudience v => Some (mkPage (setTargetAudience v s) (inFlight p))
  | ChangeDesiredVibe v => Some (mkPage (setDesiredVibe v s) (inFlight p))
  | PhotoLoadEnd result => Some (mkPage (setProductPhoto result s) (inFlight p))
  | ChangeBannerVariationPrompt v =>
      if step4_rendered s
      then Some (mkPage (setBannerVariationPrompt v s) (inFlight p))
      else None
  | ClickAngleCard index =>
      if step2_rendered s then
        match nth_error (marketingAngles s) index with
        | Some angle => Some (mkPage (setSelectedAngle (Some angle) s) (inFlight p))
        | None => None
        end
      else None
  | ClickSuggestAngles =>
      if suggestAngles_disabled s then None
      else
        match getMarketingAngles_start s with
        | (s', []) => Some (mkPage s' (inFlight p))
        | (s', _ :: _) => Some (mkPage s' (inFlight p ++ [AnglesPending]))
        end
  | ClickGenerateCampaign =>
      if generateCampaign_rendered s && negb (generateCampaign_disabled s) then
        match generateCampaignAssets_start s with
        | (s', Some c, _) => Some (mkPage s' (inFlight p ++ [CampaignPending c]))
        | (s', None, _) => Some (mkPage s' (inFlight p))
        end
      else None
  | ClickGenerateVariation =>
      if step4_rendered s && negb (generateVariation_disabled s) then
        match generateBannerVariation_start s with
        | (s', []) => Some (mkPage s' (inFlight p))
        | (s', _ :: _) => Some (mkPage s' (inFlight p ++ [VariationPending]))
        end
      else None
  | Settle index o =>
      match nth_error (inFlight p) index, o with
      | Some AnglesPending, AnglesSettled r =>
          Some (mkPage (getMarketingAngles_finish r s) (removeNth index (inFlight p)))
      | Some (CampaignPending c), CampaignSettled r =>
          Some (mkPage (generateCampaignAssets_finish c r s) (removeNth index (inFlight p)))
      | Some VariationPending, VariationSettled r =>
          Some (mkPage (generateBannerVariation_finish r s) (removeNth index (inFlight p)))
      | _, _ => None
      end
  end.

Fixpoint run (events : list Event) (p : Page) : option Page :=
  match events with
  | [] => Some p
  | e :: rest =>
      match step e p with
      | Some p' => run rest p'
      | None => None
      end
  end.

Inductive reachable : Page -> Prop :=
| reachable_init : reachable initialPage
| reachable_step (e : Event) (p p' : Page) :
    reachable p -> step e p = Some p' -> reachable p'.

(** ** The stages of the specification, read off the state *)

Inductive StageState : Type :=
| AwaitingInputs
| AnglesReady
| AngleSelected
| AssetsReady.

(** Step 1 awaits inputs; step 2 has angles, with or without a selection;
    step 3 shows the assets. *)
Definition stageOf (s : AppState) : StageState :=
  if currentStep s <=? 1 then AwaitingInputs
  else if currentStep s =? 2 then
    if present (selectedAngle s) then AngleSelected else AnglesReady
  else AssetsReady.

(** ** A session used in the examples below *)

Module Session.

Definition quoted (s : string) : string := dquote ++ s ++ dquote.

(** The JSON text of an array of strings. *)
Fixpoint joinWith (sep : string) (l : list string) : string :=
  match l with
  | [] => EmptyString
  | [x] => x
  | x :: rest => x ++ sep ++ joinWith sep rest
  end.

Definition jsonArray (items : list string) : string :=
  "[" ++ joinWith "," items ++ "]".

Definition jsonAngle (a : MarketingAngle.t) : string :=
  "{" ++ quoted "title" ++ ":" ++ quoted (MarketingAngle.title a) ++ ","
      ++ quoted "description" ++ ":" ++ quoted (MarketingAngle.description a) ++ "}".

(** A response whose text is the JSON of the angles it parses to. *)
Definition anglesResponse (angles : list MarketingAngle.t)
    : Outcome (TextResponse (list MarketingAngle.t)) :=
  Returned (mkText (jsonArray (map jsonAngle angles)) (Some angles)).

Definition headlinesResponse (lines : list string)
    : Outcome (TextResponse Json) :=
  Returned (mkText (jsonArray (map quoted lines)) (Some (Headlines lines))).

(** A response to a request without schema: free text, not JSON. *)
Definition copyResponse (copy : string) : Outcome (TextResponse Json) :=
  Returned (mkText copy None).

(** A response with a text part followed by an image part. *)
Definition imageResponse (base64 : string) : Outcome (list Part) :=
  Returned [ mkPart None (Some "Here is your image.");
             mkPart (Some (mkBlob base64 "image/png")) None ].

Definition photo : string := "data:image/png;base64,UEhPVE8=".

Definition pureRoots : MarketingAngle.t :=
  MarketingAngle.mk "Pure Roots" "Soap that goes back to what nature intended.".
Definition lessIsFresh : MarketingAngle.t :=
  MarketingAngle.mk "Less Is Fresh" "A minimalist routine for a cleaner planet.".
Definition dailyRitual : MarketingAngle.t :=
  MarketingAngle.mk "Daily Ritual" "Turn every wash into a mindful moment.".

Definition fillInputs : list Event :=
  [ PhotoLoadEnd (Some photo);
    ChangeProductName "HydroFresh Soap";
    ChangeTargetAudience "eco-conscious young adults";
    ChangeDesiredVibe "natural, minimalist" ].

Definition toAngleSelected : list Event :=
  (fillInputs ++
   [ ClickSuggestAngles;
     Settle 0 (AnglesSettled (anglesResponse [pureRoots; lessIsFresh; dailyRitual]));
     ClickAngleCard 1 ])%list.

Definition allSix : CampaignResponses :=
  {| instagramImageResponse := imageResponse "SU5TVEE=";
     instagramTextResponse := copyResponse "Fresh starts here. #eco #soap #fresh Shop now!";
     facebookImageResponse := imageResponse "RkFDRQ==";
     facebookTextResponse := copyResponse "Tired of harsh soaps? Meet HydroFresh.";
     bannerImageResponse := imageResponse "QkFOTkVS";
     bannerTextResponse :=
       headlinesResponse ["Less Is Fresh"; "Clean, Simply"; "Nature, Bottled"] |}.

(** The same, but the Facebook image call answers with text only. *)
Definition facebookImageMissing : CampaignResponses :=
  {| instagramImageResponse := imageResponse "SU5TVEE=";
     instagramTextResponse := copyResponse "Fresh starts here. #eco #soap #fresh Shop now!";
     facebookImageResponse := Returned [ mkPart None (Some "I cannot draw that.") ];
     facebookTextResponse := copyResponse "Tired of harsh soaps? Meet HydroFresh.";
     bannerImageResponse := imageResponse "QkFOTkVS";
     bannerTextResponse :=
       headlinesResponse ["Less Is Fresh"; "Clean, Simply"; "Nature, Bottled"] |}.

Definition toAssetsReady : list Event :=
  (toAngleSelected ++ [ ClickGenerateCampaign; Settle 0 (CampaignSettled allSix) ])%list.

Definition toEditedBanner : list Event :=
  (toAssetsReady ++
   [ ChangeBannerVariationPrompt "make background lime green";
     ClickGenerateVariation;
     Settle 0 (VariationSettled (imageResponse "TElNRQ==")) ])%list.

(** The assets are there and an instruction is typed, then a new photo fails
    to load: [reader.result] is [null]. *)
Definition toPhotoLost : list Event :=
  (toAssetsReady ++
   [ ChangeBannerVariationPrompt "make background lime green";
     PhotoLoadEnd None ])%list.

(** A later batch, with other angles. *)
Definition cleanSlate : MarketingAngle.t :=
  MarketingAngle.mk "Clean Slate" "Start over with nothing but the essentials.".
Definition greenHabit : MarketingAngle.t :=
  MarketingAngle.mk "Green Habit" "A small daily choice that adds up.".

(** At step 2 the angles are requested twice in a row; the first request
    settles, a card of its batch is clicked, then the second settles. *)
Definition toStaleSelection : list Event :=
  (fillInputs ++
   [ ClickSuggestAngles;
     Settle 0 (AnglesSettled (anglesResponse [pureRoots; lessIsFresh; dailyRitual]));
     ClickSuggestAngles;
     ClickSuggestAngles;
     Settle 0 (AnglesSettled (anglesResponse [pureRoots; lessIsFresh; dailyRitual]));
     ClickAngleCard 0;
     Settle 0 (AnglesSettled (anglesResponse [cleanSlate; greenHabit])) ])%list.

(** The six responses, but the headline call answers with one JSON string
    instead of an array. *)
Definition headlineIsString : CampaignResponses :=
  {| instagramImageResponse := imageResponse "SU5TVEE=";
     instagramTextResponse := copyResponse "Fresh starts here. #eco #soap #fresh Shop now!";
     facebookImageResponse := imageResponse "RkFDRQ==";
     facebookTextResponse := copyResponse "Tired of harsh soaps? Meet HydroFresh.";
     bannerImageResponse := imageResponse "QkFOTkVS";
     bannerTextResponse :=
       Returned (mkText (quoted "Less Is Fresh") (Some (JString "Less Is Fresh"))) |}.

(** The page each of these sessions ends in ([initialPage] if it cannot run). *)
Definition pageAfter (events : list Event) : Page :=
  match run events initialPage with
  | Some p => p
  | None => initialPage
  end.

End Session.

(** An event the page does not offer leaves it as it is. *)
Definition handle (e : Event) (p : Page) : Page :=
  match step e p with
  | Some p' => p'
  | None => p
  end.

(** The asset collection is empty or is the three entries of line 165. *)
Definition assetsShape (assets : list CampaignAsset.t) : Prop :=
  assets = [] \/
  exists instagramImage instagramText facebookImage facebookText bannerImage bannerText,
    assets =
      [ CampaignAsset.mk "Instagram Lifestyle Post" instagramImage instagramText;
        CampaignAsset.mk "Facebook Ad (Focus on People)" facebookImage facebookText;
        CampaignAsset.mk "Web Banner (Graphic & Direct)" bannerImage bannerText ].

(** Each of the six sub-calls of line 156 returns. *)
Definition sixSucceed (c : CampaignClosure) (r : CampaignResponses) : bool :=
  let p := closurePrompts c in
  returned (generateImage (closurePhoto c) (instagramImagePrompt p) (instagramImageResponse r))
  && returned (generateText false (instagramTextResponse r))
  && returned (generateImage (closurePhoto c) (facebookImagePrompt p) (facebookImageResponse r))
  && returned (generateText false (facebookTextResponse r))
  && returned (generateImage (closurePhoto c) (bannerImagePrompt p) (bannerImageResponse r))
  && returned (generateText true (bannerTextResponse r)).

(** No part before the first one with [inlineData] has any. *)
Definition firstInline (parts : list Part) (blob : Blob) : Prop :=
  exists before part rest,
    parts = (before ++ part :: rest)%list /\
    Forall (fun q => inlineData q = None) before /\
    inlineData part = Some blob.

(** ** How the inline image parts of a request are cut from data URLs *)

(** [s.split(sep)] for a one-character separator; the result is never empty. *)
Fixpoint split (sep : ascii) (s : string) : list string :=
  match s with
  | EmptyString => [EmptyString]
  | String c rest =>
      if Ascii.eqb c sep then EmptyString :: split sep rest
      else
        match split sep rest with
        | [] => [String c EmptyString]
        | piece :: pieces => String c piece :: pieces
        end
  end.

(** [url.split(',')[1]], [None] for [undefined]. *)
Definition base64Data (url : string) : option string :=
  nth_error (split (ascii_of_nat 44) url) 1.

(** A line terminator, which [.] does not match, starts [s].  Strings are
    sequences of UTF-8 bytes: the line terminators are line feed, carriage
    return, and U+2028 and U+2029, whose encodings are E2 80 A8 and
    E2 80 A9. *)
Definition isLineTerminator (s : string) : bool :=
  match s with
  | EmptyString => false
  | String c rest =>
      Ascii.eqb c (ascii_of_nat 10) || Ascii.eqb c (ascii_of_nat 13)
      || (Ascii.eqb c (ascii_of_nat 226)
          && match rest with
             | String d (String e _) =>
                 Ascii.eqb d (ascii_of_nat 128)
                 && (Ascii.eqb e (ascii_of_nat 168) || Ascii.eqb e (ascii_of_nat 169))
             | _ => false
             end)
  end.

(** [s] without the prefix [p], when it starts with it. *)
Fixpoint afterPrefix (p s : string) : option string :=
  match p, s with
  | EmptyString, _ => Some s
  | String _ _, EmptyString => None
  | String a p', String b s' => if Ascii.eqb a b then afterPrefix p' s' else None
  end.

(** The capture group of the pattern, a greedy run of any characters but
    line terminators, followed by the literal [marker], tried at the start
    of [s]: the capture is the longest such run after which [marker] follows. *)
Fixpoint greedyBefore (marker s : string) : option string :=
  match s with
  | EmptyString => if startsWith marker s then Some EmptyString else None
  | String c rest =>
      match (if isLineTerminator s then None else greedyBefore marker rest) with
      | Some capture => Some (String c capture)
      | None => if startsWith marker s then Some EmptyString else None
      end
  end.

(** The [match] of lines 111 and 204 with its [?.[1]]: the literal data:,
    the capture group, the literal ;base64, - the capture of the leftmost
    match, [None] when nothing matches. *)
Fixpoint matchDataUrl (s : string) : option string :=
  match
    match afterPrefix "data:" s with
    | Some rest => greedyBefore ";base64," rest
    | None => None
    end
  with
  | Some capture => Some capture
  | None =>
      match s with
      | EmptyString => None
      | String _ rest => matchDataUrl rest
      end
  end.

(** Lines 111 and 204: [... || 'image/png']. *)
Definition mimeTypeOf (url : string) : string :=
  match matchDataUrl url with
  | Some capture => if truthy capture then capture else "image/png"
  | None => "image/png"
  end.

(** [{ inlineData: { data, mimeType } }] as the handlers build it. *)
Record InlineImage : Type := mkInline {
  imageData : option string;
  imageMimeType : string
}.

Inductive ContentPart : Type :=
| InlinePart (i : InlineImage)
| TextPart (t : string).

(** Lines 110-117 and 203-210. *)
Definition objectImagePart (productPhoto : string) : ContentPart :=
  InlinePart (mkInline (base64Data productPhoto) (mimeTypeOf productPhoto)).

(** Lines 213-219: the banner is always sent as image/png. *)
Definition cleanEnvironmentImagePart (image : string) : ContentPart :=
  InlinePart (mkInline (base64Data image) "image/png").

(** The [contents] of a call: a prompt alone, or the photo, then the other
    reference images, then the text part. *)
Definition contentParts (q : Request) : list ContentPart :=
  match q with
  | TextRequest prompt _ => [TextPart prompt]
  | ImageRequest [] t => [TextPart t]
  | ImageRequest (photo :: others) t =>
      (objectImagePart photo :: map cleanEnvironmentImagePart others ++ [TextPart t])%list
  end.

(** ** More of what the page renders *)

(** Line 316: a card is highlighted when its title is the selected title. *)
Definition angleCardSelected (s : AppState) (angle : MarketingAngle.t) : bool :=
  match selectedAngle s with
  | Some chosen => String.eqb (MarketingAngle.title chosen) (MarketingAngle.title angle)
  | None => false
  end.

(** Line 366: [campaignAssets.find(...)!.image]; [None] when the lookup finds
    nothing and the render throws. *)
Definition originalBannerImage (s : AppState) : option string :=
  option_map CampaignAsset.image (find isWebBanner (campaignAssets s)).

(** Lines 382-387: what the Edited Banner card shows. *)
Inductive BannerCard : Type :=
| CardSpinner
| CardImage (src : string)
| CardPlaceholder.

Definition editedBannerCard (s : AppState) : BannerCard :=
  if isLoading s && (3 <=? currentStep s) && negb (truthy_opt (editedBanner s))
  then CardSpinner
  else
    match editedBanner s with
    | Some banner => if truthy banner then CardImage banner else CardPlaceholder
    | None => CardPlaceholder
    end.

(** A PNG data URL with a non-empty payload. *)
Definition isPngDataUrl (url : string) : Prop :=
  exists base64, truthy base64 = true /\ url = pngDataUrl base64.

(** Every image the state holds is such a URL. *)
Definition imagesArePng (s : AppState) : Prop :=
  Forall (fun a => isPngDataUrl (CampaignAsset.image a)) (campaignAssets s) /\
  (forall banner, editedBanner s = Some banner -> isPngDataUrl banner).

(** An image response from which [generateImage] gets an image. *)
Definition usable (response : Outcome (list Part)) : Prop :=
  exists parts blob,
    response = Returned parts /\ firstInline parts blob /\ truthy (data blob) = true.

(** [c] does not occur in [s]. *)
Fixpoint lacks (c : ascii) (s : string) : bool :=
  match s with
  | EmptyString => true
  | String b rest => negb (Ascii.eqb b c) && lacks c rest
  end.

(** No line terminator starts anywhere in [s]. *)
Fixpoint noLineTerminator (s : string) : bool :=
  match s with
  | EmptyString => true
  | String b rest => negb (isLineTerminator s) && noLineTerminator rest
  end.

(** The inputs of the user: no handler writes them. *)
Definition inputsOf (s : AppState) : option string * string * string * string * string :=
  (productPhoto s, productName s, targetAudience s, desiredVibe s, bannerVariationPrompt s).

(** The events by which the user edits an input. *)
Definition editsInput (e : Event) : bool :=
  match e with
  | ChangeProductName _ | ChangeTargetAudience _ | ChangeDesiredVibe _
  | PhotoLoadEnd _ | ChangeBannerVariationPrompt _ => true
  | _ => false
  end.

(** * Properties *)

(** ** Basic facts *)

Lemma truthy_false (s : string) : truthy s = false <-> s = EmptyString.
Proof. destruct s; simpl; split; congruence. Qed.

Lemma run_app (l1 l2 : list Event) (p : Page) :
  run (l1 ++ l2) p =
  match run l1 p with
  | Some q => run l2 q
  | None => None
  end.
Proof.
  revert p. induction l1 as [|e l1 IH]; intros p; simpl.
  - reflexivity.
  - destruct (step e p) as [q|]; [apply IH | reflexivity].
Qed.

Lemma run_reachable (events : list Event) :
  forall p p', reachable p -> run events p = Some p' -> reachable p'.
Proof.
  induction events as [|e rest IH]; simpl; intros p p' Hp Hrun.
  - injection Hrun as <-. exact Hp.
  - destruct (step e p) as [q|] eqn:Hstep; [|discriminate].
    apply (IH q); [|exact Hrun].
    exact (reachable_step e p q Hp Hstep).
Qed.

Lemma session_reachable (events : list Event) (p : Page) :
  run events initialPage = Some p -> reachable p.
Proof. apply run_reachable. constructor. Qed.

(** *** The scan for the first inline image *)

Lemma newImageBase64_none (parts : list Part) :
  newImageBase64 parts = None <-> Forall (fun q => inlineData q = None) parts.
Proof.
  induction parts as [|p rest IH]; simpl.
  - split; [constructor | reflexivity].
  - destruct (inlineData p) as [b|] eqn:Hp.
    + split; [discriminate|]. intros H. inversion H; congruence.
    + rewrite IH. split.
      * intros H. constructor; assumption.
      * intros H. inversion H; assumption.
Qed.

Lemma newImageBase64_first (parts : list Part) (blob : Blob) :
  firstInline parts blob -> newImageBase64 parts = Some (data blob).
Proof.
  intros (before & part & rest & -> & Hbefore & Hpart).
  induction Hbefore as [|q before Hq _ IH]; simpl.
  - rewrite Hpart. reflexivity.
  - rewrite Hq. exact IH.
Qed.

Lemma newImageBase64_some (parts : list Part) (base64 : string) :
  newImageBase64 parts = Some base64 ->
  exists blob, firstInline parts blob /\ data blob = base64.
Proof.
  induction parts as [|p rest IH]; simpl; [discriminate|].
  destruct (inlineData p) as [b|] eqn:Hp.
  - intros [= <-]. exists b. split; [|reflexivity].
    exists [], p, rest. repeat split; [constructor | exact Hp].
  - intros H. destruct (IH H) as (blob & (before & part & rest' & -> & Hb & Hpart) & Hd).
    exists blob. split; [|exact Hd].
    exists (p :: before), part, rest'. repeat split.
    + constructor; assumption.
    + exact Hpart.
Qed.

(** *** The shape of the asset collection is kept by every handler *)

Lemma assetsShape_nil : assetsShape [].
Proof. left. reflexivity. Qed.

Lemma getMarketingAngles_start_shape (s : AppState) :
  assetsShape (campaignAssets s) ->
  assetsShape (campaignAssets (fst (getMarketingAngles_start s))).
Proof.
  intros H. unfold getMarketingAngles_start.
  destruct (negb (truthy (productName s)) || negb (truthy (targetAudience s))
            || negb (truthy (desiredVibe s))); simpl.
  - exact H.
  - apply assetsShape_nil.
Qed.

Lemma getMarketingAngles_finish_assets r (s : AppState) :
  campaignAssets (getMarketingAngles_finish r s) = campaignAssets s.
Proof.
  unfold getMarketingAngles_finish.
  destruct r as [t|e]; [unfold parsedAngles, JSON_parse; destruct (parsed t)|]; reflexivity.
Qed.

Lemma generateCampaignAssets_start_shape (s : AppState) :
  assetsShape (campaignAssets s) ->
  assetsShape (campaignAssets (fst (fst (generateCampaignAssets_start s)))).
Proof.
  intros H. unfold generateCampaignAssets_start.
  destruct (selectedAngle s); [|exact H].
  destruct (negb (truthy (productName s)) || negb (truthy_opt (productPhoto s))); simpl.
  - exact H.
  - apply assetsShape_nil.
Qed.

Lemma generateCampaignAssets_finish_shape c r (s : AppState) :
  assetsShape (campaignAssets s) ->
  assetsShape (campaignAssets (generateCampaignAssets_finish c r s)).
Proof.
  intros H. unfold generateCampaignAssets_finish.
  destruct (campaignResults c r) as [[[[[[iI iT] fI] fT] bI] bT]|]; simpl.
  - right. exists iI, iT, fI, fT, bI, bT. reflexivity.
  - exact H.
Qed.

Lemma generateBannerVariation_start_assets (s : AppState) :
  campaignAssets (fst (generateBannerVariation_start s)) = campaignAssets s.
Proof.
  unfold generateBannerVariation_start.
  destruct (negb (truthy (bannerVariationPrompt s))); [reflexivity|].
  destruct (find isWebBanner (campaignAssets s)); [|reflexivity].
  destruct (productPhoto s) as [photo|]; [|reflexivity].
  destruct (truthy photo); reflexivity.
Qed.

Lemma generateBannerVariation_finish_assets r (s : AppState) :
  campaignAssets (generateBannerVariation_finish r s) = campaignAssets s.
Proof.
  unfold generateBannerVariation_finish.
  destruct r as [parts|e]; [|reflexivity].
  destruct (newImageBase64 parts) as [d|]; [destruct (truthy d)|]; reflexivity.
Qed.

Lemma step_shape (e : Event) (p p' : Page) :
  step e p = Some p' ->
  assetsShape (campaignAssets (app p)) ->
  assetsShape (campaignAssets (app p')).
Proof.
  intros Hstep H. destruct e; simpl in Hstep.
  - injection Hstep as <-. exact H.
  - injection Hstep as <-. exact H.
  - injection Hstep as <-. exact H.
  - injection Hstep as <-. exact H.
  - destruct (step4_rendered (app p)); [|discriminate].
    injection Hstep as <-. exact H.
  - destruct (step2_rendered (app p)); [|discriminate].
    destruct (nth_error (marketingAngles (app p)) index); [|discriminate].
    injection Hstep as <-. exact H.
  - destruct (suggestAngles_disabled (app p)); [discriminate|].
    pose proof (getMarketingAngles_start_shape (app p) H) as Hs.
    destruct (getMarketingAngles_start (app p)) as [s' [|q qs]];
      injection Hstep as <-; exact Hs.
  - destruct (generateCampaign_rendered (app p) && negb (generateCampaign_disabled (app p)));
      [|discriminate].
    pose proof (generateCampaignAssets_start_shape (app p) H) as Hs.
    destruct (generateCampaignAssets_start (app p)) as [[s' [c|]] qs];
      injection Hstep as <-; exact Hs.
  - destruct (step4_rendered (app p) && negb (generateVariation_disabled (app p)));
      [|discriminate].
    pose proof (generateBannerVariation_start_assets (app p)) as Hs.
    destruct (generateBannerVariation_start (app p)) as [s' [|q qs]];
      injection Hstep as <-; simpl in *; rewrite Hs; exact H.
  - destruct (nth_error (inFlight p) index) as [[|c|]|]; destruct o; try discriminate;
      injection Hstep as <-; cbn [app].
    + rewrite getMarketingAngles_finish_assets. exact H.
    + apply generateCampaignAssets_finish_shape. exact H.
    + rewrite generateBannerVariation_finish_assets. exact H.
Qed.

Lemma reachable_shape (p : Page) :
  reachable p -> assetsShape (campaignAssets (app p)).
Proof.
  induction 1 as [|e p p' _ IH Hstep].
  - apply assetsShape_nil.
  - exact (step_shape e p p' Hstep IH).
Qed.

Lemma shape_find (assets : list CampaignAsset.t) :
  assetsShape assets ->
  (assets = [] /\ find isWebBanner assets = None) \/
  (exists a b c,
      assets = [a; b; c] /\ filter isWebBanner assets = [c] /\
      find isWebBanner assets = Some c).
Proof.
  intros [->|(iI & iT & fI & fT & bI & bT & ->)].
  - left. split; reflexivity.
  - right. eexists _, _, _. repeat split.
Qed.

(** ** Image extraction *)

(** C6, as stated, fails: a response whose first inline part has empty data
    and whose second inline part has image data makes [generateImage] fail
    with the no-image error although parts of the response carry inline
    image data. *)
Lemma generateImage_empty_first_blob :
  let parts := [ mkPart (Some (mkBlob EmptyString "image/png")) None;
                 mkPart (Some (mkBlob "QUJD" "image/png")) None ] in
  generateImage (Some Session.photo) "banner" (Returned parts)
    = Threw (Error (noImageMessage "banner")) /\
  ~ Forall (fun q => inlineData q = None) parts /\
  Exists (fun q => exists b, inlineData q = Some b /\ truthy (data b) = true) parts.
Proof.
  cbv zeta. split; [reflexivity|]. split.
  - intros H. inversion H as [|q l Hq Hl]. discriminate Hq.
  - apply Exists_cons_tl. apply Exists_cons_hd.
    eexists. split; reflexivity.
Qed.

(** C6, amended.  For every service response, image extraction looks at the
    first content part that has an [inlineData] field: when the data of that
    part is non-empty it returns it as a PNG data URL, and it fails with the
    no-image error exactly when no part has an [inlineData] field or the
    first such part has empty data; it fails in no other way.  With the photo
    present [generateImage] is this extraction, and [generateBannerVariation]
    stores the same image as the edited banner when there is one. *)
Theorem generateImage_result_first_inline (prompt : string) (parts : list Part) :
  (forall blob, firstInline parts blob -> truthy (data blob) = true ->
     generateImage_result prompt parts = Returned (pngDataUrl (data blob))) /\
  (generateImage_result prompt parts = Threw (Error (noImageMessage prompt)) <->
     Forall (fun q => inlineData q = None) parts \/
     exists blob, firstInline parts blob /\ data blob = EmptyString) /\
  (forall e, generateImage_result prompt parts = Threw e ->
     e = Error (noImageMessage prompt)) /\
  (forall photo, truthy_opt photo = true ->
     generateImage photo prompt (Returned parts) = generateImage_result prompt parts) /\
  (forall s, editedBanner (generateBannerVariation_finish (Returned parts) s) =
     match generateImage_result prompt parts with
     | Returned img => Some img
     | Threw _ => editedBanner s
     end).
Proof.
  repeat split.
  - intros blob Hfirst Hdata. unfold generateImage_result.
    rewrite (newImageBase64_first parts blob Hfirst), Hdata. reflexivity.
  - unfold generateImage_result.
    destruct (newImageBase64 parts) as [d|] eqn:Hscan.
    + destruct (newImageBase64_some parts d Hscan) as (blob & Hfirst & Hd).
      destruct (truthy d) eqn:Ht; [discriminate|].
      intros _. right. exists blob. split; [exact Hfirst|].
      rewrite Hd. apply truthy_false. exact Ht.
    + intros _. left. apply newImageBase64_none. exact Hscan.
  - intros [Hnone|(blob & Hfirst & Hempty)]; unfold generateImage_result.
    + apply newImageBase64_none in Hnone. rewrite Hnone. reflexivity.
    + rewrite (newImageBase64_first parts blob Hfirst), Hempty. reflexivity.
  - unfold generateImage_result.
    destruct (newImageBase64 parts) as [d|]; [destruct (truthy d)|]; congruence.
  - intros [photo|] Hphoto; simpl in Hphoto; [|discriminate].
    unfold generateImage, generateImage_request. rewrite Hphoto. reflexivity.
  - intros s. unfold generateBannerVariation_finish, generateImage_result.
    destruct (newImageBase64 parts) as [d|]; [destruct (truthy d)|]; reflexivity.
Qed.

(** The extraction on a response with a text part followed by an image part. *)
Lemma generateImage_result_first_inline_witness :
  generateImage_result "banner"
    [ mkPart None (Some "Here is your image.");
      mkPart (Some (mkBlob "QkFOTkVS" "image/png")) None ]
  = Returned "data:image/png;base64,QkFOTkVS".
Proof.
  apply (proj1 (generateImage_result_first_inline "banner"
           [ mkPart None (Some "Here is your image.");
             mkPart (Some (mkBlob "QkFOTkVS" "image/png")) None ])
         (mkBlob "QkFOTkVS" "image/png")).
  - exists [mkPart None (Some "Here is your image.")],
      (mkPart (Some (mkBlob "QkFOTkVS" "image/png")) None), [].
    repeat split. constructor; [reflexivity | constructor].
  - reflexivity.
Defined.

(** ** The banner lookup *)

(** C10.  On every reachable page the asset collection is empty, or it has
    three entries of which exactly the third has a title containing
    'Web Banner', and the lookup of [generateBannerVariation] finds that
    entry; the lookup fails only on the empty collection, and it succeeds on
    the collection a successful [generateCampaignAssets] stores. *)
Theorem web_banner_lookup (p : Page) :
  reachable p ->
  let assets := campaignAssets (app p) in
  (assets = [] \/
   exists a b c,
     assets = [a; b; c] /\ filter isWebBanner assets = [c] /\
     find isWebBanner assets = Some c) /\
  (find isWebBanner assets = None <-> assets = []) /\
  (forall c r, campaignResults c r <> None ->
     exists banner,
       nth_error (campaignAssets (generateCampaignAssets_finish c r (app p))) 2
         = Some banner /\
       find isWebBanner (campaignAssets (generateCampaignAssets_finish c r (app p)))
         = Some banner).
Proof.
  intros Hreach assets.
  pose proof (shape_find assets (reachable_shape p Hreach)) as Hshape.
  split; [|split].
  - destruct Hshape as [[Hnil _]|Hthree]; [left; exact Hnil | right; exact Hthree].
  - destruct Hshape as [[Hnil Hfind]|(a & b & c & Heq & _ & Hfind)].
    + split; intros _; assumption.
    + rewrite Hfind, Heq. split; discriminate.
  - intros c r Hok. unfold generateCampaignAssets_finish.
    destruct (campaignResults c r) as [[[[[[iI iT] fI] fT] bI] bT]|]; [|congruence].
    eexists. split; reflexivity.
Qed.

(** The lookup on the page that shows the assets of the sample session. *)
Lemma web_banner_lookup_witness :
  exists c,
    nth_error (campaignAssets (app (Session.pageAfter Session.toAssetsReady))) 2 = Some c /\
    find isWebBanner (campaignAssets (app (Session.pageAfter Session.toAssetsReady))) = Some c.
Proof.
  assert (Hreach : reachable (Session.pageAfter Session.toAssetsReady)).
  { apply (session_reachable Session.toAssetsReady). vm_compute. reflexivity. }
  destruct (proj1 (web_banner_lookup _ Hreach)) as [Hnil|(a & b & c & Heq & _ & Hfind)].
  - vm_compute in Hnil. discriminate Hnil.
  - exists c. split; [|exact Hfind]. rewrite Heq. reflexivity.
Defined.

(** ** Banner variation without a photo *)

(** C7.  On every reachable page that shows the variation controls, a call of
    [generateBannerVariation] with a non-empty instruction and a missing
    product photo dispatches no request and changes nothing but the error,
    which becomes the photo-missing message; pressing the enabled button does
    exactly that and suspends no handler. *)
Theorem variation_photo_missing (p : Page) :
  reachable p ->
  step4_rendered (app p) = true ->
  truthy (bannerVariationPrompt (app p)) = true ->
  truthy_opt (productPhoto (app p)) = false ->
  generateBannerVariation_start (app p) =
    (setError (Some "Original product photo not found. Please ensure it is still loaded in Step 1.")
       (app p), []) /\
  (isLoading (app p) = false ->
   step ClickGenerateVariation p =
     Some (mkPage
             (setError (Some "Original product photo not found. Please ensure it is still loaded in Step 1.")
                (app p))
             (inFlight p))).
Proof.
  intros Hreach Hshown Hprompt Hphoto.
  assert (Hstart : generateBannerVariation_start (app p) =
    (setError (Some "Original product photo not found. Please ensure it is still loaded in Step 1.")
       (app p), [])).
  { unfold generateBannerVariation_start. rewrite Hprompt. cbn [negb].
    destruct (shape_find _ (reachable_shape p Hreach))
      as [[Hnil _]|(a & b & c & _ & _ & Hfind)].
    - unfold step4_rendered in Hshown. rewrite Hnil in Hshown.
      rewrite andb_false_r in Hshown. discriminate Hshown.
    - rewrite Hfind. destruct (productPhoto (app p)) as [photo|]; [|reflexivity].
      simpl in Hphoto. rewrite Hphoto. reflexivity. }
  split; [exact Hstart|].
  intros Hidle. cbn [step]. rewrite Hshown. unfold generateVariation_disabled.
  rewrite Hprompt, Hidle. cbn [negb orb andb]. rewrite Hstart. reflexivity.
Qed.

(** The sample session after the photo was lost: the call reports it. *)
Lemma variation_photo_missing_witness :
  error (fst (generateBannerVariation_start (app (Session.pageAfter Session.toPhotoLost))))
  = Some "Original product photo not found. Please ensure it is still loaded in Step 1.".
Proof.
  assert (Hreach : reachable (Session.pageAfter Session.toPhotoLost)).
  { apply (session_reachable Session.toPhotoLost). vm_compute. reflexivity. }
  assert (Hshown : step4_rendered (app (Session.pageAfter Session.toPhotoLost)) = true)
    by (vm_compute; reflexivity).
  assert (Hprompt : truthy (bannerVariationPrompt (app (Session.pageAfter Session.toPhotoLost))) = true)
    by (vm_compute; reflexivity).
  assert (Hphoto : truthy_opt (productPhoto (app (Session.pageAfter Session.toPhotoLost))) = false)
    by (vm_compute; reflexivity).
  rewrite (proj1 (variation_photo_missing _ Hreach Hshown Hprompt Hphoto)).
  reflexivity.
Defined.

(** ** The full campaign *)

Lemma campaignResults_sixSucceed (c : CampaignClosure) (r : CampaignResponses) :
  sixSucceed c r = true <->
  exists iI iT fI fT bI bT, campaignResults c r = Some (iI, iT, fI, fT, bI, bT).
Proof.
  unfold sixSucceed, campaignResults, promiseAll6. cbv zeta.
  destruct (generateImage (closurePhoto c) (instagramImagePrompt (closurePrompts c))
              (instagramImageResponse r)) as [iI|];
  destruct (generateText false (instagramTextResponse r)) as [iT|];
  destruct (generateImage (closurePhoto c) (facebookImagePrompt (closurePrompts c))
              (facebookImageResponse r)) as [fI|];
  destruct (generateText false (facebookTextResponse r)) as [fT|];
  destruct (generateImage (closurePhoto c) (bannerImagePrompt (closurePrompts c))
              (bannerImageResponse r)) as [bI|];
  destruct (generateText true (bannerTextResponse r)) as [bT|];
  cbn [returned andb];
  (split; [intros H; try discriminate H; eexists _, _, _, _, _, _; reflexivity
          | intros (? & ? & ? & ? & ? & ? & H); try discriminate H; reflexivity]).
Qed.

Lemma campaignResults_none (c : CampaignClosure) (r : CampaignResponses) :
  sixSucceed c r = false <-> campaignResults c r = None.
Proof.
  pose proof (campaignResults_sixSucceed c r) as H.
  destruct (sixSucceed c r); destruct (campaignResults c r) as [[[[[[iI iT] fI] fT] bI] bT]|].
  - split; intros; discriminate.
  - destruct (proj1 H eq_refl) as (? & ? & ? & ? & ? & ? & E). discriminate E.
  - assert (false = true) by (apply H; eexists _, _, _, _, _, _; reflexivity). discriminate.
  - split; reflexivity.
Qed.

Lemma generateCampaignAssets_start_inv (s s1 : AppState) (c : CampaignClosure)
    (reqs : list Request) :
  generateCampaignAssets_start s = (s1, Some c, reqs) ->
  exists angle,
    selectedAngle s = Some angle /\ truthy (productName s) = true /\
    truthy_opt (productPhoto s) = true /\
    s1 = (s |> setIsLoading true
            |> setLoadingMessage "Generating your full campaign assets..."
            |> setError None
            |> setCampaignAssets []
            |> setEditedBanner None) /\
    c = mkClosure (productPhoto s) (campaignPrompts s angle) /\
    length reqs = 6%nat.
Proof.
  unfold generateCampaignAssets_start.
  destruct (selectedAngle s) as [angle|]; [|discriminate].
  destruct (truthy (productName s)) eqn:Hname; [|discriminate].
  destruct (truthy_opt (productPhoto s)) eqn:Hphoto; [|discriminate].
  cbn [negb orb]. intros [= <- <- <-].
  exists angle. repeat split.
  unfold imageRequests, generateImage_request.
  destruct (productPhoto s) as [photo|]; simpl in Hphoto; [|discriminate].
  rewrite Hphoto. reflexivity.
Qed.

(** C5, as stated, fails: when the headline call answers with one JSON
    string instead of an array, the six sub-calls succeed and the three
    entries are stored, but the text of the Banner entry is that single
    string, not a list of strings. *)
Lemma headline_string_is_stored :
  let after :=
    Session.pageAfter
      (Session.toAngleSelected ++
       [ClickGenerateCampaign; Settle 0 (CampaignSettled Session.headlineIsString)]) in
  run (Session.toAngleSelected ++
       [ClickGenerateCampaign; Settle 0 (CampaignSettled Session.headlineIsString)])
      initialPage = Some after /\
  currentStep (app after) = 3 /\
  map CampaignAsset.title (campaignAssets (app after))
    = ["Instagram Lifestyle Post"; "Facebook Ad (Focus on People)";
       "Web Banner (Graphic & Direct)"] /\
  option_map CampaignAsset.text (nth_error (campaignAssets (app after)) 2)
    = Some (JString "Less Is Fresh") /\
  option_map (fun a => isArray (CampaignAsset.text a))
    (nth_error (campaignAssets (app after)) 2) = Some false.
Proof.
  cbv zeta.
  split; [vm_compute; reflexivity|].
  split; [vm_compute; reflexivity|].
  split; [vm_compute; reflexivity|].
  split; vm_compute; reflexivity.
Qed.

(** C5, amended.  When the six sub-calls of [generateCampaignAssets] all
    return, the collection stored, whatever the state at that time, is
    exactly three entries in the order Instagram, Facebook, Banner, each made
    of the image and the text returned for its own role.  The Instagram and
    Facebook texts are the texts of their responses, single strings.  The
    Banner text is the value [JSON.parse] reads from the headline response,
    stored unchecked: the list of strings when the response is one, and any
    other value just the same. *)
Theorem generateCampaign_assembles_in_order
    (c : CampaignClosure) (r : CampaignResponses) (s : AppState)
    (instagramImage facebookImage bannerImage : string)
    (instagramText facebookText bannerText : AssetText) :
  generateImage (closurePhoto c) (instagramImagePrompt (closurePrompts c))
    (instagramImageResponse r) = Returned instagramImage ->
  generateText false (instagramTextResponse r) = Returned instagramText ->
  generateImage (closurePhoto c) (facebookImagePrompt (closurePrompts c))
    (facebookImageResponse r) = Returned facebookImage ->
  generateText false (facebookTextResponse r) = Returned facebookText ->
  generateImage (closurePhoto c) (bannerImagePrompt (closurePrompts c))
    (bannerImageResponse r) = Returned bannerImage ->
  generateText true (bannerTextResponse r) = Returned bannerText ->
  campaignAssets (generateCampaignAssets_finish c r s) =
    [ CampaignAsset.mk "Instagram Lifestyle Post" instagramImage instagramText;
      CampaignAsset.mk "Facebook Ad (Focus on People)" facebookImage facebookText;
      CampaignAsset.mk "Web Banner (Graphic & Direct)" bannerImage bannerText ] /\
  (exists t, instagramTextResponse r = Returned t /\ instagramText = Single (text t)) /\
  (exists t, facebookTextResponse r = Returned t /\ facebookText = Single (text t)) /\
  (exists t, bannerTextResponse r = Returned t /\ parsed t = Some bannerText) /\
  (forall t lines,
     bannerTextResponse r = Returned t -> parsed t = Some (Headlines lines) ->
     bannerText = Headlines lines).
Proof.
  intros HiI HiT HfI HfT HbI HbT. split.
  { unfold generateCampaignAssets_finish, campaignResults. cbv zeta.
    rewrite HiI, HiT, HfI, HfT, HbI, HbT. reflexivity. }
  assert (Hbanner : exists t, bannerTextResponse r = Returned t /\ parsed t = Some bannerText).
  { destruct (bannerTextResponse r) as [t|e]; cbn [generateText] in HbT; [|discriminate].
    unfold JSON_parse in HbT. destruct (parsed t) as [v|] eqn:Hv; [|discriminate].
    injection HbT as <-. exists t. split; [reflexivity | exact Hv]. }
  split; [|split; [|split; [exact Hbanner|]]].
  - destruct (instagramTextResponse r) as [t|e]; cbn [generateText] in HiT; [|discriminate].
    injection HiT as <-. exists t. split; reflexivity.
  - destruct (facebookTextResponse r) as [t|e]; cbn [generateText] in HfT; [|discriminate].
    injection HfT as <-. exists t. split; reflexivity.
  - intros t lines Ht Hp. destruct Hbanner as (t' & Ht' & Hp').
    rewrite Ht in Ht'. injection Ht' as <-. congruence.
Qed.

(** The collection assembled from the six responses of the sample session. *)
Lemma generateCampaign_assembles_in_order_witness :
  campaignAssets
    (generateCampaignAssets_finish
       (mkClosure (Some Session.photo) (campaignPrompts initialState Session.lessIsFresh))
       Session.allSix initialState) =
    [ CampaignAsset.mk "Instagram Lifestyle Post" "data:image/png;base64,SU5TVEE="
        (Single "Fresh starts here. #eco #soap #fresh Shop now!");
      CampaignAsset.mk "Facebook Ad (Focus on People)" "data:image/png;base64,RkFDRQ=="
        (Single "Tired of harsh soaps? Meet HydroFresh.");
      CampaignAsset.mk "Web Banner (Graphic & Direct)" "data:image/png;base64,QkFOTkVS"
        (Headlines ["Less Is Fresh"; "Clean, Simply"; "Nature, Bottled"]) ].
Proof.
  apply (generateCampaign_assembles_in_order
           (mkClosure (Some Session.photo) (campaignPrompts initialState Session.lessIsFresh))
           Session.allSix initialState);
    vm_compute; reflexivity.
Defined.

(** C1, as stated, fails: on the page that shows the assets of a first
    campaign the campaign button is still offered; pressing it and having one
    of the six sub-calls fail (the Facebook image call returns no image)
    leaves the collection empty, so the operation has changed it. *)
Lemma failed_regeneration_clears_assets :
  let before := Session.pageAfter Session.toAssetsReady in
  let after :=
    Session.pageAfter
      (Session.toAssetsReady ++
       [ClickGenerateCampaign; Settle 0 (CampaignSettled Session.facebookImageMissing)]) in
  run [ClickGenerateCampaign; Settle 0 (CampaignSettled Session.facebookImageMissing)] before
    = Some after /\
  length (campaignAssets (app before)) = 3%nat /\
  campaignAssets (app after) = [] /\
  campaignAssets (app after) <> campaignAssets (app before).
Proof.
  cbv zeta.
  split; [vm_compute; reflexivity|].
  split; [vm_compute; reflexivity|].
  split; [vm_compute; reflexivity|].
  vm_compute. discriminate.
Qed.

(** Two campaigns can be in flight at step 3, where the button stays enabled
    while the flag is set: when the first succeeds and the second fails, the
    three assets of the first are on the page beside the error of the
    second. *)
Lemma overlapping_campaigns_keep_assets :
  let after :=
    Session.pageAfter
      (Session.toAssetsReady ++
       [ ClickGenerateCampaign; ClickGenerateCampaign;
         Settle 0 (CampaignSettled Session.allSix);
         Settle 0 (CampaignSettled Session.facebookImageMissing) ]) in
  run (Session.toAssetsReady ++
       [ ClickGenerateCampaign; ClickGenerateCampaign;
         Settle 0 (CampaignSettled Session.allSix);
         Settle 0 (CampaignSettled Session.facebookImageMissing) ])
      initialPage = Some after /\
  length (campaignAssets (app after)) = 3%nat /\
  error (app after) = Some "Failed to generate the campaign. Please try again.".
Proof.
  cbv zeta.
  split; [vm_compute; reflexivity|].
  split; vm_compute; reflexivity.
Qed.

(** C1, amended.  A call of [generateCampaignAssets] that passes its guard
    empties the asset collection and dispatches six requests.  When a
    campaign settles with any of its six sub-calls failed, in whatever state
    the page is then, it stores nothing: the campaign error is reported and
    the collection, the step and the selected angle are left as they are at
    that moment.  So when nothing else happened since the dispatch, the
    collection is empty afterwards, whatever it held before the call, and the
    step and the selection are those of the click (the stage is still
    AngleSelected when it was).  The three entries are stored, and the step
    set to 3, only by a settlement with all six succeeded, and on no
    reachable page does the collection hold anything but none or three
    entries. *)
Theorem generateCampaign_all_or_nothing
    (s now : AppState) (angle : MarketingAngle.t) (photo : string)
    (c : CampaignClosure) (r : CampaignResponses) :
  selectedAngle s = Some angle ->
  truthy (productName s) = true ->
  productPhoto s = Some photo ->
  truthy photo = true ->
  let s1 := s |> setIsLoading true
              |> setLoadingMessage "Generating your full campaign assets..."
              |> setError None
              |> setCampaignAssets []
              |> setEditedBanner None in
  let own := mkClosure (Some photo) (campaignPrompts s angle) in
  (exists reqs,
     generateCampaignAssets_start s = (s1, Some own, reqs) /\ length reqs = 6%nat) /\
  (campaignAssets s1 = [] /\ currentStep s1 = currentStep s /\
   selectedAngle s1 = selectedAngle s) /\
  (sixSucceed c r = false ->
     campaignAssets (generateCampaignAssets_finish c r now) = campaignAssets now /\
     error (generateCampaignAssets_finish c r now)
       = Some "Failed to generate the campaign. Please try again." /\
     currentStep (generateCampaignAssets_finish c r now) = currentStep now /\
     selectedAngle (generateCampaignAssets_finish c r now) = selectedAngle now /\
     stageOf (generateCampaignAssets_finish c r now) = stageOf now) /\
  (sixSucceed c r = true ->
     length (campaignAssets (generateCampaignAssets_finish c r now)) = 3%nat /\
     currentStep (generateCampaignAssets_finish c r now) = 3) /\
  (campaignAssets (generateCampaignAssets_finish c r now) <> campaignAssets now ->
     sixSucceed c r = true) /\
  (sixSucceed own r = false ->
     campaignAssets (generateCampaignAssets_finish own r s1) = [] /\
     currentStep (generateCampaignAssets_finish own r s1) = currentStep s /\
     selectedAngle (generateCampaignAssets_finish own r s1) = selectedAngle s /\
     stageOf (generateCampaignAssets_finish own r s1) = stageOf s) /\
  (forall p, reachable p ->
     campaignAssets (app p) = [] \/ length (campaignAssets (app p)) = 3%nat).
Proof.
  intros Hangle Hname Hphoto Htruthy s1 own.
  assert (Hfail : forall c' now',
    sixSucceed c' r = false ->
    campaignAssets (generateCampaignAssets_finish c' r now') = campaignAssets now' /\
    error (generateCampaignAssets_finish c' r now')
      = Some "Failed to generate the campaign. Please try again." /\
    currentStep (generateCampaignAssets_finish c' r now') = currentStep now' /\
    selectedAngle (generateCampaignAssets_finish c' r now') = selectedAngle now' /\
    stageOf (generateCampaignAssets_finish c' r now') = stageOf now').
  { intros c' now' Hsix. apply campaignResults_none in Hsix.
    unfold generateCampaignAssets_finish. rewrite Hsix.
    split; [reflexivity|]. split; [reflexivity|]. split; [reflexivity|].
    split; reflexivity. }
  split; [|split; [|split; [|split; [|split; [|split]]]]].
  - unfold generateCampaignAssets_start.
    rewrite Hangle, Hname, Hphoto. cbn [truthy_opt]. rewrite Htruthy. cbn [negb orb].
    eexists. split; [reflexivity|].
    unfold imageRequests, generateImage_request. rewrite Htruthy. reflexivity.
  - split; [reflexivity|]. split; reflexivity.
  - exact (Hfail c now).
  - intros Hsix. apply campaignResults_sixSucceed in Hsix.
    destruct Hsix as (iI & iT & fI & fT & bI & bT & Hres).
    unfold generateCampaignAssets_finish. rewrite Hres. split; reflexivity.
  - intros Hne. destruct (sixSucceed c r) eqn:Hsix; [reflexivity|].
    destruct (Hfail c now Hsix) as [Hsame _]. contradiction.
  - intros Hsix. destruct (Hfail own s1 Hsix) as (Ha & _ & Hstep & Hsel & Hstage).
    split; [exact Ha|]. split; [exact Hstep|]. split; [exact Hsel|].
    rewrite Hstage. reflexivity.
  - intros p Hreach.
    destruct (reachable_shape p Hreach) as [->|(iI & iT & fI & fT & bI & bT & ->)];
      [left | right]; reflexivity.
Qed.

(** A regeneration from the page that shows the sample assets: the dispatch
    empties the collection, and it is still empty when the Facebook image is
    missing. *)
Lemma generateCampaign_all_or_nothing_witness :
  length (campaignAssets (app (Session.pageAfter Session.toAssetsReady))) = 3%nat /\
  campaignAssets
    (fst (fst (generateCampaignAssets_start (app (Session.pageAfter Session.toAssetsReady)))))
  = [] /\
  campaignAssets
    (generateCampaignAssets_finish
       (mkClosure (Some Session.photo)
          (campaignPrompts (app (Session.pageAfter Session.toAssetsReady)) Session.lessIsFresh))
       Session.facebookImageMissing
       (setEditedBanner None (setCampaignAssets [] (setError None
          (setLoadingMessage "Generating your full campaign assets..."
             (setIsLoading true (app (Session.pageAfter Session.toAssetsReady))))))))
  = [].
Proof.
  assert (Hangle : selectedAngle (app (Session.pageAfter Session.toAssetsReady))
                   = Some Session.lessIsFresh) by (vm_compute; reflexivity).
  assert (Hname : truthy (productName (app (Session.pageAfter Session.toAssetsReady))) = true)
    by (vm_compute; reflexivity).
  assert (Hphoto : productPhoto (app (Session.pageAfter Session.toAssetsReady))
                   = Some Session.photo) by (vm_compute; reflexivity).
  assert (Htruthy : truthy Session.photo = true) by reflexivity.
  destruct (generateCampaign_all_or_nothing
              (app (Session.pageAfter Session.toAssetsReady)) initialState
              Session.lessIsFresh Session.photo
              (mkClosure None (campaignPrompts initialState Session.lessIsFresh))
              Session.facebookImageMissing Hangle Hname Hphoto Htruthy)
    as ((reqs & Hstart & _) & _ & _ & _ & _ & Hown & _).
  split; [vm_compute; reflexivity|]. split.
  - rewrite Hstart. reflexivity.
  - apply Hown. vm_compute. reflexivity.
Defined.

(** ** Banner variation *)

Lemma generateBannerVariation_start_inv (s s1 : AppState) (reqs : list Request) :
  generateBannerVariation_start s = (s1, reqs) ->
  reqs <> [] ->
  s1 = (s |> setIsLoading true
          |> setLoadingMessage "Generating variation..."
          |> setError None
          |> setEditedBanner None).
Proof.
  unfold generateBannerVariation_start.
  destruct (negb (truthy (bannerVariationPrompt s))); [intros [= <- <-]; congruence|].
  destruct (find isWebBanner (campaignAssets s)); [|intros [= <- <-]; congruence].
  destruct (productPhoto s) as [photo|]; [|intros [= <- <-]; congruence].
  destruct (truthy photo); intros [= <- <-]; congruence.
Qed.

(** C2, as stated, fails: after a first variation has stored an edited
    banner, a second variation whose service call fails leaves no edited
    banner at all. *)
Lemma failed_variation_drops_banner :
  let before := Session.pageAfter Session.toEditedBanner in
  let after :=
    Session.pageAfter
      (Session.toEditedBanner ++
       [ClickGenerateVariation; Settle 0 (VariationSettled (Threw ServiceError))]) in
  run [ClickGenerateVariation; Settle 0 (VariationSettled (Threw ServiceError))] before
    = Some after /\
  editedBanner (app before) = Some "data:image/png;base64,TElNRQ==" /\
  editedBanner (app after) = None /\
  error (app after) = Some "Failed to generate banner variation. Please try again.".
Proof.
  cbv zeta.
  split; [vm_compute; reflexivity|].
  split; [vm_compute; reflexivity|].
  split; vm_compute; reflexivity.
Qed.

(** Two variations can be in flight: the settlement of another handler
    clears the flag, which enables the variation button again.  When the
    first variation succeeds and the second fails, the edited banner of the
    first is on the page beside the error of the second. *)
Lemma overlapping_variations_keep_banner :
  let after :=
    Session.pageAfter
      (Session.toAssetsReady ++
       [ ChangeBannerVariationPrompt "make background lime green";
         ClickGenerateVariation;
         ClickGenerateCampaign;
         Settle 1 (CampaignSettled Session.allSix);
         ClickGenerateVariation;
         Settle 0 (VariationSettled (Session.imageResponse "TElNRQ=="));
         Settle 0 (VariationSettled (Threw ServiceError)) ]) in
  run (Session.toAssetsReady ++
       [ ChangeBannerVariationPrompt "make background lime green";
         ClickGenerateVariation;
         ClickGenerateCampaign;
         Settle 1 (CampaignSettled Session.allSix);
         ClickGenerateVariation;
         Settle 0 (VariationSettled (Session.imageResponse "TElNRQ=="));
         Settle 0 (VariationSettled (Threw ServiceError)) ])
      initialPage = Some after /\
  editedBanner (app after) = Some "data:image/png;base64,TElNRQ==" /\
  error (app after) = Some "Failed to generate banner variation. Please try again.".
Proof.
  cbv zeta.
  split; [vm_compute; reflexivity|].
  split; vm_compute; reflexivity.
Qed.

(** C2, amended.  A call of [generateBannerVariation] with an instruction, a
    banner asset and the photo reaches the service, and clears the edited
    banner before it dispatches.  When a variation settles as failed (the
    service call throws, or the response yields no image), in whatever state
    the page is then, an error is reported and the edited banner is left as
    it is at that moment; only a response that yields an image stores an
    edited banner, namely that image.  So when nothing else happened since
    the dispatch, there is no edited banner after a failure, whatever was
    stored before the call. *)
Theorem variation_failure_clears_banner
    (s now : AppState) (banner : CampaignAsset.t) (photo : string)
    (r : Outcome (list Part)) :
  truthy (bannerVariationPrompt s) = true ->
  find isWebBanner (campaignAssets s) = Some banner ->
  productPhoto s = Some photo ->
  truthy photo = true ->
  let s1 := s |> setIsLoading true
              |> setLoadingMessage "Generating variation..."
              |> setError None
              |> setEditedBanner None in
  generateBannerVariation_start s =
    (s1, [ImageRequest [photo; CampaignAsset.image banner] (bannerVariationPrompt s)]) /\
  editedBanner s1 = None /\
  match r with
  | Threw _ =>
      editedBanner (generateBannerVariation_finish r now) = editedBanner now /\
      error (generateBannerVariation_finish r now)
        = Some "Failed to generate banner variation. Please try again." /\
      editedBanner (generateBannerVariation_finish r s1) = None
  | Returned parts =>
      match generateImage_result (bannerVariationPrompt s) parts with
      | Returned img =>
          editedBanner (generateBannerVariation_finish r now) = Some img /\
          error (generateBannerVariation_finish r now) = error now /\
          error (generateBannerVariation_finish r s1) = None
      | Threw _ =>
          editedBanner (generateBannerVariation_finish r now) = editedBanner now /\
          error (generateBannerVariation_finish r now)
            = Some "The model did not return an edited image. Please try a different prompt." /\
          editedBanner (generateBannerVariation_finish r s1) = None
      end
  end.
Proof.
  intros Hprompt Hfind Hphoto Htruthy s1.
  split; [|split; [reflexivity|]].
  - unfold generateBannerVariation_start.
    rewrite Hprompt, Hfind, Hphoto, Htruthy. reflexivity.
  - unfold generateBannerVariation_finish, generateImage_result.
    destruct r as [parts|e]; [|repeat split].
    destruct (newImageBase64 parts) as [d|]; [destruct (truthy d)|]; repeat split.
Qed.

(** A second variation of the sample session: the dispatch clears the edited
    banner of the first, and it stays absent when the service call fails. *)
Lemma variation_failure_clears_banner_witness :
  editedBanner (app (Session.pageAfter Session.toEditedBanner))
    = Some "data:image/png;base64,TElNRQ==" /\
  editedBanner
    (fst (generateBannerVariation_start (app (Session.pageAfter Session.toEditedBanner))))
    = None /\
  editedBanner
    (generateBannerVariation_finish (Threw ServiceError)
       (setEditedBanner None (setError None (setLoadingMessage "Generating variation..."
          (setIsLoading true (app (Session.pageAfter Session.toEditedBanner)))))))
    = None.
Proof.
  assert (Hprompt : truthy (bannerVariationPrompt (app (Session.pageAfter Session.toEditedBanner)))
                    = true) by (vm_compute; reflexivity).
  assert (Hfind : find isWebBanner (campaignAssets (app (Session.pageAfter Session.toEditedBanner)))
                  = Some (CampaignAsset.mk "Web Banner (Graphic & Direct)"
                            "data:image/png;base64,QkFOTkVS"
                            (Headlines ["Less Is Fresh"; "Clean, Simply"; "Nature, Bottled"])))
    by (vm_compute; reflexivity).
  assert (Hphoto : productPhoto (app (Session.pageAfter Session.toEditedBanner))
                   = Some Session.photo) by (vm_compute; reflexivity).
  assert (Htruthy : truthy Session.photo = true) by reflexivity.
  destruct (variation_failure_clears_banner
              (app (Session.pageAfter Session.toEditedBanner)) initialState _ _
              (Threw ServiceError) Hprompt Hfind Hphoto Htruthy)
    as (Hstart & _ & _ & _ & Hown).
  split; [vm_compute; reflexivity|]. split.
  - rewrite Hstart. reflexivity.
  - exact Hown.
Defined.

(** ** Marketing angles *)

Lemma getMarketingAngles_start_inv (s s1 : AppState) (reqs : list Request) :
  getMarketingAngles_start s = (s1, reqs) ->
  reqs <> [] ->
  s1 = (s |> setIsLoading true
          |> setLoadingMessage "Brainstorming strategic angles..."
          |> setError None
          |> setMarketingAngles []
          |> setSelectedAngle None
          |> setCampaignAssets []
          |> setEditedBanner None) /\
  reqs = [TextRequest (anglesPrompt s) (Some AngleArray)].
Proof.
  unfold getMarketingAngles_start.
  destruct (negb (truthy (productName s)) || negb (truthy (targetAudience s))
            || negb (truthy (desiredVibe s)));
    intros [= <- <-]; [congruence|].
  intros _. split; reflexivity.
Qed.

Lemma isStep1Complete_guard (s : AppState) :
  isStep1Complete s = true ->
  negb (truthy (productName s)) || negb (truthy (targetAudience s))
  || negb (truthy (desiredVibe s)) = false.
Proof.
  unfold isStep1Complete. intros H.
  apply andb_prop in H as [H Hvibe]. apply andb_prop in H as [H Haudience].
  apply andb_prop in H as [_ Hname].
  rewrite Hname, Haudience, Hvibe. reflexivity.
Qed.




(** C4.  Whenever one of the four inputs is absent (no photo, or an empty
    name, audience or vibe), the angles button is disabled: pressing it runs
    nothing, so no request is dispatched and the page is unchanged.  The
    handler itself also returns at once, without a request or a state change,
    when one of the three texts is empty. *)
Theorem requestAngles_needs_all_inputs (p : Page) :
  truthy_opt (productPhoto (app p)) = false \/
  truthy (productName (app p)) = false \/
  truthy (targetAudience (app p)) = false \/
  truthy (desiredVibe (app p)) = false ->
  isStep1Complete (app p) = false /\
  suggestAngles_disabled (app p) = true /\
  step ClickSuggestAngles p = None /\
  handle ClickSuggestAngles p = p /\
  (truthy (productName (app p)) = false \/
   truthy (targetAudience (app p)) = false \/
   truthy (desiredVibe (app p)) = false ->
   getMarketingAngles_start (app p) = (app p, [])).
Proof.
  intros Habsent.
  assert (Hincomplete : isStep1Complete (app p) = false).
  { unfold isStep1Complete.
    destruct Habsent as [H|[H|[H|H]]]; rewrite H;
      repeat rewrite andb_false_r; reflexivity. }
  assert (Hdisabled : suggestAngles_disabled (app p) = true).
  { unfold suggestAngles_disabled. rewrite Hincomplete. reflexivity. }
  assert (Hstep : step ClickSuggestAngles p = None).
  { cbn [step]. rewrite Hdisabled. reflexivity. }
  split; [exact Hincomplete|]. split; [exact Hdisabled|]. split; [exact Hstep|].
  split.
  - unfold handle. rewrite Hstep. reflexivity.
  - intros Htext. unfold getMarketingAngles_start.
    destruct Htext as [H|[H|H]]; rewrite H; cbn [negb orb];
      repeat rewrite orb_true_r; reflexivity.
Qed.

(** The sample inputs without the photo: pressing the button changes nothing. *)
Lemma requestAngles_needs_all_inputs_witness :
  handle ClickSuggestAngles
    (mkPage (setProductPhoto None (app (Session.pageAfter Session.fillInputs))) [])
  = mkPage (setProductPhoto None (app (Session.pageAfter Session.fillInputs))) [].
Proof.
  apply (requestAngles_needs_all_inputs
           (mkPage (setProductPhoto None (app (Session.pageAfter Session.fillInputs))) [])).
  left. reflexivity.
Defined.

(** C8, as stated, fails: at step 2 the angles button stays enabled while a
    request is in flight, so two requests can overlap.  When the first
    settles, a card of its batch is clicked, and the second settles, the
    newer batch is on the page with the angle selected from the older batch,
    which is no member of it. *)
Lemma stale_selection_beside_new_batch :
  let after := Session.pageAfter Session.toStaleSelection in
  run Session.toStaleSelection initialPage = Some after /\
  marketingAngles (app after) = [Session.cleanSlate; Session.greenHabit] /\
  selectedAngle (app after) = Some Session.pureRoots /\
  ~ In Session.pureRoots (marketingAngles (app after)).
Proof.
  cbv zeta.
  split; [vm_compute; reflexivity|].
  split; [vm_compute; reflexivity|].
  split; [vm_compute; reflexivity|].
  vm_compute. intros [H|[H|[]]]; discriminate H.
Qed.

(** C8, amended.  Every call of [getMarketingAngles] with a product name, an
    audience and a vibe starts a new batch: before it dispatches, it clears
    the angles, the selected angle, the asset collection and the edited
    banner.  The settlement of the call writes none of the selected angle,
    the assets and the edited banner: they are left as they are at that
    moment.  So when nothing else happened since the dispatch they are still
    cleared with the new batch, and no angle selected before is selected. *)
Theorem requestAngles_resets_downstream
    (s now : AppState) (r : Outcome (TextResponse (list MarketingAngle.t))) :
  truthy (productName s) = true ->
  truthy (targetAudience s) = true ->
  truthy (desiredVibe s) = true ->
  let s1 := s |> setIsLoading true
              |> setLoadingMessage "Brainstorming strategic angles..."
              |> setError None
              |> setMarketingAngles []
              |> setSelectedAngle None
              |> setCampaignAssets []
              |> setEditedBanner None in
  getMarketingAngles_start s = (s1, [TextRequest (anglesPrompt s) (Some AngleArray)]) /\
  (marketingAngles s1 = [] /\ selectedAngle s1 = None /\
   campaignAssets s1 = [] /\ editedBanner s1 = None) /\
  (selectedAngle (getMarketingAngles_finish r now) = selectedAngle now /\
   campaignAssets (getMarketingAngles_finish r now) = campaignAssets now /\
   editedBanner (getMarketingAngles_finish r now) = editedBanner now) /\
  (selectedAngle (getMarketingAngles_finish r s1) = None /\
   campaignAssets (getMarketingAngles_finish r s1) = [] /\
   editedBanner (getMarketingAngles_finish r s1) = None) /\
  (forall previous,
     selectedAngle s = Some previous ->
     selectedAngle (getMarketingAngles_finish r s1) <> Some previous).
Proof.
  intros Hname Haudience Hvibe s1.
  assert (Hframe : forall now',
    selectedAngle (getMarketingAngles_finish r now') = selectedAngle now' /\
    campaignAssets (getMarketingAngles_finish r now') = campaignAssets now' /\
    editedBanner (getMarketingAngles_finish r now') = editedBanner now').
  { intros now'. unfold getMarketingAngles_finish.
    destruct (parsedAngles r); split; try split; reflexivity. }
  split; [|split; [|split; [exact (Hframe now)|split]]].
  - unfold getMarketingAngles_start. rewrite Hname, Haudience, Hvibe. reflexivity.
  - split; [reflexivity|]. split; [reflexivity|]. split; reflexivity.
  - destruct (Hframe s1) as (Hsel & Hassets & Hbanner).
    rewrite Hsel, Hassets, Hbanner. split; [reflexivity|]. split; reflexivity.
  - intros previous _. destruct (Hframe s1) as (Hsel & _). rewrite Hsel. discriminate.
Qed.

(** A new batch requested at the end of the sample session: the selection,
    the three assets and the edited banner are cleared by the dispatch. *)
Lemma requestAngles_resets_downstream_witness :
  (selectedAngle (app (Session.pageAfter Session.toEditedBanner)) = Some Session.lessIsFresh /\
   length (campaignAssets (app (Session.pageAfter Session.toEditedBanner))) = 3%nat /\
   editedBanner (app (Session.pageAfter Session.toEditedBanner))
     = Some "data:image/png;base64,TElNRQ==") /\
  (selectedAngle
     (fst (getMarketingAngles_start (app (Session.pageAfter Session.toEditedBanner)))) = None /\
   campaignAssets
     (fst (getMarketingAngles_start (app (Session.pageAfter Session.toEditedBanner)))) = [] /\
   editedBanner
     (fst (getMarketingAngles_start (app (Session.pageAfter Session.toEditedBanner)))) = None).
Proof.
  assert (Hname : truthy (productName (app (Session.pageAfter Session.toEditedBanner))) = true)
    by (vm_compute; reflexivity).
  assert (Haudience :
    truthy (targetAudience (app (Session.pageAfter Session.toEditedBanner))) = true)
    by (vm_compute; reflexivity).
  assert (Hvibe : truthy (desiredVibe (app (Session.pageAfter Session.toEditedBanner))) = true)
    by (vm_compute; reflexivity).
  destruct (requestAngles_resets_downstream
              (app (Session.pageAfter Session.toEditedBanner)) initialState
              (Session.anglesResponse [Session.dailyRitual])
              Hname Haudience Hvibe) as (Hstart & _).
  split.
  - split; [vm_compute; reflexivity|]. split; vm_compute; reflexivity.
  - rewrite Hstart. split; [reflexivity|]. split; reflexivity.
Defined.

(** ** The busy flag *)

(** C9, as stated, fails: while the campaign of step 2 is being generated the
    flag is set, yet the angles button is enabled; pressing it suspends a
    second handler, so two generation operations are in flight. *)
Lemma angles_button_enabled_while_busy :
  let busy := Session.pageAfter (Session.toAngleSelected ++ [ClickGenerateCampaign]) in
  let both :=
    Session.pageAfter (Session.toAngleSelected ++ [ClickGenerateCampaign; ClickSuggestAngles]) in
  run (Session.toAngleSelected ++ [ClickGenerateCampaign]) initialPage = Some busy /\
  isLoading (app busy) = true /\
  length (inFlight busy) = 1%nat /\
  suggestAngles_disabled (app busy) = false /\
  step ClickSuggestAngles busy = Some both /\
  length (inFlight both) = 2%nat.
Proof.
  cbv zeta.
  split; [vm_compute; reflexivity|].
  split; [vm_compute; reflexivity|].
  split; [vm_compute; reflexivity|].
  split; [vm_compute; reflexivity|].
  split; vm_compute; reflexivity.
Qed.

(** C9, amended.  Each of the three generation handlers sets the busy flag
    before it dispatches, and clears it when its call settles, whether the
    call succeeded or failed.  While the flag is set the variation button is
    disabled; the angles button is disabled only if an input is missing or
    the step is 1, and the campaign button only if no angle is selected or
    the step is 2. *)
Theorem busy_flag_discipline (s : AppState) :
  (snd (getMarketingAngles_start s) <> [] ->
     isLoading (fst (getMarketingAngles_start s)) = true) /\
  (snd (generateCampaignAssets_start s) <> [] ->
     isLoading (fst (fst (generateCampaignAssets_start s))) = true) /\
  (snd (generateBannerVariation_start s) <> [] ->
     isLoading (fst (generateBannerVariation_start s)) = true) /\
  (forall r, isLoading (getMarketingAngles_finish r s) = false) /\
  (forall c r, isLoading (generateCampaignAssets_finish c r s) = false) /\
  (forall r, isLoading (generateBannerVariation_finish r s) = false) /\
  (isLoading s = true ->
     generateVariation_disabled s = true /\
     (suggestAngles_disabled s = true <-> isStep1Complete s = false \/ currentStep s = 1) /\
     (generateCampaign_disabled s = true <-> selectedAngle s = None \/ currentStep s = 2)).
Proof.
  split; [|split; [|split; [|split; [|split; [|split]]]]].
  - intros Hreqs.
    destruct (getMarketingAngles_start s) as [s1 reqs] eqn:Hstart. cbn [fst snd] in *.
    destruct (getMarketingAngles_start_inv s s1 reqs Hstart Hreqs) as [-> _]. reflexivity.
  - unfold generateCampaignAssets_start.
    destruct (selectedAngle s); [|intros H; contradiction H; reflexivity].
    destruct (negb (truthy (productName s)) || negb (truthy_opt (productPhoto s)));
      [intros H; contradiction H; reflexivity|].
    intros _. reflexivity.
  - intros Hreqs.
    destruct (generateBannerVariation_start s) as [s1 reqs] eqn:Hstart. cbn [fst snd] in *.
    rewrite (generateBannerVariation_start_inv s s1 reqs Hstart Hreqs). reflexivity.
  - intros r. unfold getMarketingAngles_finish. destruct (parsedAngles r); reflexivity.
  - intros c r. unfold generateCampaignAssets_finish.
    destruct (campaignResults c r) as [[[[[[iI iT] fI] fT] bI] bT]|]; reflexivity.
  - intros r. unfold generateBannerVariation_finish.
    destruct r as [parts|e]; [|reflexivity].
    destruct (newImageBase64 parts) as [d|]; [destruct (truthy d)|]; reflexivity.
  - intros Hbusy.
    unfold generateVariation_disabled, suggestAngles_disabled, generateCampaign_disabled.
    rewrite Hbusy. cbn [andb]. split; [apply orb_true_r|]. split.
    + rewrite orb_true_iff, negb_true_iff, Z.eqb_eq. reflexivity.
    + rewrite orb_true_iff, negb_true_iff, Z.eqb_eq.
      destruct (selectedAngle s); cbn [present]; split;
        intros [H|H]; try discriminate H; auto.
Qed.

(** While the campaign of the sample session is generated, no variation can start. *)
Lemma busy_flag_discipline_witness :
  generateVariation_disabled
    (app (Session.pageAfter (Session.toAngleSelected ++ [ClickGenerateCampaign]))) = true.
Proof.
  destruct (busy_flag_discipline
              (app (Session.pageAfter (Session.toAngleSelected ++ [ClickGenerateCampaign]))))
    as (_ & _ & _ & _ & _ & _ & Hbusy).
  assert (Hflag : isLoading
            (app (Session.pageAfter (Session.toAngleSelected ++ [ClickGenerateCampaign]))) = true)
    by (vm_compute; reflexivity).
  exact (proj1 (Hbusy Hflag)).
Defined.

(** * Further properties of the handlers and of the page *)

(** ** The handlers by cases *)

Lemma getMarketingAngles_start_cases (s : AppState) :
  getMarketingAngles_start s = (s, []) \/
  getMarketingAngles_start s =
    (setEditedBanner None (setCampaignAssets [] (setSelectedAngle None
       (setMarketingAngles [] (setError None
          (setLoadingMessage "Brainstorming strategic angles..." (setIsLoading true s)))))),
     [TextRequest (anglesPrompt s) (Some AngleArray)]).
Proof.
  unfold getMarketingAngles_start.
  destruct (negb (truthy (productName s)) || negb (truthy (targetAudience s))
            || negb (truthy (desiredVibe s))); [left|right]; reflexivity.
Qed.

Lemma generateCampaignAssets_start_cases (s : AppState) :
  generateCampaignAssets_start s = (s, None, []) \/
  exists c reqs,
    generateCampaignAssets_start s =
      (setEditedBanner None (setCampaignAssets [] (setError None
         (setLoadingMessage "Generating your full campaign assets..." (setIsLoading true s)))),
       Some c, reqs).
Proof.
  unfold generateCampaignAssets_start.
  destruct (selectedAngle s); [|left; reflexivity].
  destruct (negb (truthy (productName s)) || negb (truthy_opt (productPhoto s)));
    [left; reflexivity | right; eexists _, _; reflexivity].
Qed.

Lemma generateBannerVariation_start_cases (s : AppState) :
  generateBannerVariation_start s = (s, []) \/
  (exists m, generateBannerVariation_start s = (setError (Some m) s, [])) \/
  exists q,
    generateBannerVariation_start s =
      (setEditedBanner None (setError None
         (setLoadingMessage "Generating variation..." (setIsLoading true s))), [q]).
Proof.
  unfold generateBannerVariation_start.
  destruct (negb (truthy (bannerVariationPrompt s))); [left; reflexivity|].
  right.
  destruct (find isWebBanner (campaignAssets s)); [|left; eexists; reflexivity].
  destruct (productPhoto s) as [photo|]; [|left; eexists; reflexivity].
  destruct (truthy photo); [right|left]; eexists; reflexivity.
Qed.

Lemma getMarketingAngles_finish_cases r (s : AppState) :
  (exists angles,
     getMarketingAngles_finish r s =
       setIsLoading false (setCurrentStep 2 (setMarketingAngles angles s))) \/
  (exists m, getMarketingAngles_finish r s = setIsLoading false (setError (Some m) s)).
Proof.
  unfold getMarketingAngles_finish.
  destruct (parsedAngles r); [left|right]; eexists; reflexivity.
Qed.

Lemma generateCampaignAssets_finish_cases c r (s : AppState) :
  (exists iI iT fI fT bI bT,
     campaignResults c r = Some (iI, iT, fI, fT, bI, bT) /\
     generateCampaignAssets_finish c r s =
       setIsLoading false (setCurrentStep 3 (setCampaignAssets
         [ CampaignAsset.mk "Instagram Lifestyle Post" iI iT;
           CampaignAsset.mk "Facebook Ad (Focus on People)" fI fT;
           CampaignAsset.mk "Web Banner (Graphic & Direct)" bI bT ] s))) \/
  (exists m, generateCampaignAssets_finish c r s = setIsLoading false (setError (Some m) s)).
Proof.
  unfold generateCampaignAssets_finish.
  destruct (campaignResults c r) as [[[[[[iI iT] fI] fT] bI] bT]|].
  - left. exists iI, iT, fI, fT, bI, bT. split; reflexivity.
  - right. eexists. reflexivity.
Qed.

Lemma generateBannerVariation_finish_cases r (s : AppState) :
  (exists base64,
     truthy base64 = true /\
     generateBannerVariation_finish r s =
       setIsLoading false (setEditedBanner (Some (pngDataUrl base64)) s)) \/
  (exists m, generateBannerVariation_finish r s = setIsLoading false (setError (Some m) s)).
Proof.
  unfold generateBannerVariation_finish.
  destruct r as [parts|e]; [|right; eexists; reflexivity].
  destruct (newImageBase64 parts) as [d|]; [|right; eexists; reflexivity].
  destruct (truthy d) eqn:Hd; [left; exists d; split; [exact Hd | reflexivity]
                              | right; eexists; reflexivity].
Qed.

(** The pages a step can lead to, by the kind of the event. *)
Lemma step_cases (e : Event) (p p' : Page) :
  step e p = Some p' ->
  let s := app p in
  (inFlight p' = inFlight p /\
   (app p' = s \/
    (exists v, app p' = setProductName v s) \/
    (exists v, app p' = setTargetAudience v s) \/
    (exists v, app p' = setDesiredVibe v s) \/
    (exists v, app p' = setProductPhoto v s) \/
    (exists v, step4_rendered s = true /\ app p' = setBannerVariationPrompt v s) \/
    (exists angle, step2_rendered s = true /\ In angle (marketingAngles s) /\
                   app p' = setSelectedAngle (Some angle) s) \/
    (exists m, step4_rendered s = true /\ app p' = setError (Some m) s))) \/
  (suggestAngles_disabled s = false /\
   inFlight p' = (inFlight p ++ [AnglesPending])%list /\
   app p' = fst (getMarketingAngles_start s) /\ snd (getMarketingAngles_start s) <> []) \/
  (generateCampaign_rendered s = true /\ generateCampaign_disabled s = false /\
   exists c reqs, inFlight p' = (inFlight p ++ [CampaignPending c])%list /\
     generateCampaignAssets_start s = (app p', Some c, reqs)) \/
  (step4_rendered s = true /\ generateVariation_disabled s = false /\
   inFlight p' = (inFlight p ++ [VariationPending])%list /\
   app p' = fst (generateBannerVariation_start s) /\
   snd (generateBannerVariation_start s) <> []) \/
  (exists index,
     inFlight p' = removeNth index (inFlight p) /\
     ((exists r, nth_error (inFlight p) index = Some AnglesPending /\
                 app p' = getMarketingAngles_finish r s) \/
      (exists c r, nth_error (inFlight p) index = Some (CampaignPending c) /\
                   app p' = generateCampaignAssets_finish c r s) \/
      (exists r, nth_error (inFlight p) index = Some VariationPending /\
                 app p' = generateBannerVariation_finish r s))).
Proof.
  intros Hstep s. subst s. destruct e; cbn [step] in Hstep.
  - injection Hstep as <-. left. split; [reflexivity|]. right. left. eexists. reflexivity.
  - injection Hstep as <-. left. split; [reflexivity|]. do 2 right. left. eexists. reflexivity.
  - injection Hstep as <-. left. split; [reflexivity|]. do 3 right. left. eexists. reflexivity.
  - injection Hstep as <-. left. split; [reflexivity|]. do 4 right. left. eexists. reflexivity.
  - destruct (step4_rendered (app p)) eqn:Hshown; [|discriminate].
    injection Hstep as <-. left. split; [reflexivity|]. do 5 right. left.
    eexists. split; reflexivity.
  - destruct (step2_rendered (app p)) eqn:Hshown; [|discriminate].
    destruct (nth_error (marketingAngles (app p)) index) as [angle|] eqn:Hnth; [|discriminate].
    injection Hstep as <-. left. split; [reflexivity|]. do 6 right. left.
    exists angle. split; [reflexivity|]. split; [|reflexivity].
    exact (nth_error_In _ _ Hnth).
  - destruct (suggestAngles_disabled (app p)) eqn:Hdis; [discriminate|].
    destruct (getMarketingAngles_start (app p)) as [s' [|q qs]] eqn:Hstart.
    + exfalso. unfold suggestAngles_disabled in Hdis.
      apply orb_false_elim in Hdis as [Hc _]. apply negb_false_iff in Hc.
      unfold getMarketingAngles_start in Hstart.
      rewrite (isStep1Complete_guard _ Hc) in Hstart. discriminate Hstart.
    + injection Hstep as <-. right. left. cbn [app inFlight fst snd].
      repeat split. discriminate.
  - destruct (generateCampaign_rendered (app p)) eqn:Hshown; [|discriminate].
    destruct (generateCampaign_disabled (app p)) eqn:Hdis; [discriminate|].
    cbn [negb andb] in Hstep.
    destruct (generateCampaignAssets_start (app p)) as [[s' [c|]] reqs] eqn:Hstart;
      injection Hstep as <-.
    + do 2 right. left. split; [reflexivity|]. split; [reflexivity|].
      exists c, reqs. split; reflexivity.
    + left. split; [reflexivity|]. left. cbn [app].
      destruct (generateCampaignAssets_start_cases (app p)) as [H|(c & q & H)];
        rewrite H in Hstart; congruence.
  - destruct (step4_rendered (app p)) eqn:Hshown; [|discriminate].
    destruct (generateVariation_disabled (app p)) eqn:Hdis; [discriminate|].
    cbn [negb andb] in Hstep.
    destruct (generateBannerVariation_start (app p)) as [s' [|q qs]] eqn:Hstart;
      injection Hstep as <-.
    + left. split; [reflexivity|]. cbn [app].
      destruct (generateBannerVariation_start_cases (app p)) as [H|[(m & H)|(q & H)]];
        rewrite H in Hstart.
      * left. congruence.
      * do 7 right. exists m. split; [reflexivity | congruence].
      * discriminate Hstart.
    + do 3 right. left. cbn [app inFlight fst snd]. repeat split. discriminate.
  - do 4 right. exists index.
    destruct (nth_error (inFlight p) index) as [[|c|]|] eqn:Hnth; destruct o;
      try discriminate Hstep; injection Hstep as <-; cbn [app inFlight];
      (split; [reflexivity|]).
    + left. eexists. split; reflexivity.
    + right. left. eexists _, _. split; reflexivity.
    + do 2 right. eexists. split; reflexivity.
Qed.

Lemma removeNth_singleton {A : Type} (n : nat) (x y : A) :
  nth_error [x] n = Some y -> removeNth n [x] = [].
Proof. destruct n as [|[|n]]; simpl; intros H; try discriminate H; reflexivity. Qed.

Lemma step4_rendered_step (s : AppState) : step4_rendered s = true -> currentStep s = 3.
Proof.
  unfold step4_rendered. intros H. apply andb_prop in H as [H _].
  apply Z.eqb_eq. exact H.
Qed.

Lemma step2_rendered_step (s : AppState) : step2_rendered s = true -> 2 <= currentStep s.
Proof. unfold step2_rendered. apply Z.leb_le. Qed.

Lemma generateCampaign_rendered_step (s : AppState) :
  generateCampaign_rendered s = true -> 2 <= currentStep s.
Proof.
  unfold generateCampaign_rendered. intros H. apply andb_prop in H as [H _].
  apply step2_rendered_step. exact H.
Qed.

(** X1.  On every reachable page, when the busy flag is set a handler is
    suspended at its [await]: the flag is never left set with nothing in
    flight, so the spinner cannot stay for ever. *)
Theorem busy_flag_has_handler (p : Page) :
  reachable p -> isLoading (app p) = true -> inFlight p <> [].
Proof.
  induction 1 as [|e p p' _ IH Hstep]; [discriminate|].
  intros Hbusy.
  destruct (step_cases e p p' Hstep)
    as [(Hfl & Happ)|[(_ & Hfl & _)|[(_ & _ & c & q & Hfl & _)|[(_ & _ & Hfl & _)|(i & Hfl & Hset)]]]].
  - rewrite Hfl. apply IH.
    destruct Happ as [H|[(v & H)|[(v & H)|[(v & H)|[(v & H)|[(v & _ & H)|[(a & _ & _ & H)|(m & _ & H)]]]]]]];
      rewrite H in Hbusy; exact Hbusy.
  - rewrite Hfl. intros H. apply app_eq_nil in H as [_ H]. discriminate H.
  - rewrite Hfl. intros H. apply app_eq_nil in H as [_ H]. discriminate H.
  - rewrite Hfl. intros H. apply app_eq_nil in H as [_ H]. discriminate H.
  - exfalso.
    destruct Hset as [(r & _ & H)|[(c & r & _ & H)|(r & _ & H)]]; rewrite H in Hbusy.
    + destruct (getMarketingAngles_finish_cases r (app p)) as [(a & E)|(m & E)];
        rewrite E in Hbusy; discriminate Hbusy.
    + destruct (generateCampaignAssets_finish_cases c r (app p))
        as [(iI & iT & fI & fT & bI & bT & _ & E)|(m & E)];
        rewrite E in Hbusy; discriminate Hbusy.
    + destruct (generateBannerVariation_finish_cases r (app p)) as [(d & _ & E)|(m & E)];
        rewrite E in Hbusy; discriminate Hbusy.
Qed.

Lemma step_currentStep (e : Event) (p p' : Page) :
  step e p = Some p' ->
  currentStep (app p') = currentStep (app p) \/
  (2 <= currentStep (app p') <= 3).
Proof.
  intros Hstep.
  destruct (step_cases e p p' Hstep)
    as [(_ & Happ)|[(_ & _ & Happ & Hreq)|[(_ & _ & c & q & _ & Hstart)|[(_ & _ & _ & Happ & Hreq)|(i & _ & Hset)]]]].
  - left.
    destruct Happ as [H|[(v & H)|[(v & H)|[(v & H)|[(v & H)|[(v & _ & H)|[(a & _ & _ & H)|(m & _ & H)]]]]]]];
      rewrite H; reflexivity.
  - left. rewrite Happ.
    destruct (getMarketingAngles_start_cases (app p)) as [E|E]; rewrite E in *;
      [contradiction Hreq; reflexivity | reflexivity].
  - left. destruct (generateCampaignAssets_start_cases (app p)) as [E|(c' & q' & E)];
      rewrite E in Hstart; [discriminate Hstart|].
    injection Hstart as <- _ _. reflexivity.
  - left. rewrite Happ.
    destruct (generateBannerVariation_start_cases (app p)) as [E|[(m & E)|(q & E)]];
      rewrite E in *; try (contradiction Hreq; reflexivity). reflexivity.
  - destruct Hset as [(r & _ & H)|[(c & r & _ & H)|(r & _ & H)]]; rewrite H.
    + destruct (getMarketingAngles_finish_cases r (app p)) as [(a & E)|(m & E)];
        rewrite E; [right; cbn; lia | left; reflexivity].
    + destruct (generateCampaignAssets_finish_cases c r (app p))
        as [(iI & iT & fI & fT & bI & bT & _ & E)|(m & E)];
        rewrite E; [right; cbn; lia | left; reflexivity].
    + destruct (generateBannerVariation_finish_cases r (app p)) as [(d & _ & E)|(m & E)];
        rewrite E; left; reflexivity.
Qed.

(** X3.  On every reachable page [currentStep] is 1, 2 or 3, and from a
    page at step 2 or 3 no sequence of events leads back to step 1. *)
Theorem currentStep_range (p : Page) :
  reachable p ->
  1 <= currentStep (app p) <= 3 /\
  (forall events p',
     run events p = Some p' -> 2 <= currentStep (app p) -> 2 <= currentStep (app p')).
Proof.
  intros Hreach. split.
  - induction Hreach as [|e p p' _ IH Hstep]; [cbn; lia|].
    destruct (step_currentStep e p p' Hstep) as [H|H]; lia.
  - clear Hreach. intros events. revert p.
    induction events as [|e rest IH]; cbn [run]; intros p p' Hrun Hpast.
    + injection Hrun as <-. exact Hpast.
    + destruct (step e p) as [q|] eqn:Hstep; [|discriminate].
      apply (IH q p' Hrun).
      destruct (step_currentStep e p q Hstep) as [H|H]; lia.
Qed.

(** X2.  On every reachable page at step 1 there are no angles, no
    selection, no assets and no edited banner, and either nothing is in
    flight and the flag is clear, or exactly one angles request is in flight
    and the flag is set: operations cannot overlap before step 2. *)
Theorem step_one_is_quiet (p : Page) :
  reachable p ->
  currentStep (app p) = 1 ->
  marketingAngles (app p) = [] /\ selectedAngle (app p) = None /\
  campaignAssets (app p) = [] /\ editedBanner (app p) = None /\
  ((isLoading (app p) = false /\ inFlight p = []) \/
   (isLoading (app p) = true /\ inFlight p = [AnglesPending])).
Proof.
  induction 1 as [|e p p' _ IH Hstep].
  - intros _. repeat split. left. split; reflexivity.
  - intros Hone.
    destruct (step_cases e p p' Hstep)
      as [(Hfl & Happ)|[(Hdis & Hfl & Happ & Hreq)|[(Hshown & _ & c & q & _ & Hstart)|[(Hshown & _)|(i & Hfl & Hset)]]]].
    + rewrite Hfl.
      destruct Happ as [H|[(v & H)|[(v & H)|[(v & H)|[(v & H)|[(v & Hs & H)|[(a & Hs & _ & H)|(m & Hs & H)]]]]]]];
        rewrite H in *; cbn in Hone |- *;
        try (apply IH; exact Hone).
      apply step2_rendered_step in Hs. lia.
    + rewrite Hfl, Happ in *.
      destruct (getMarketingAngles_start_cases (app p)) as [E|E]; rewrite E in *;
        [contradiction Hreq; reflexivity|].
      cbn in Hone |- *.
      destruct (IH Hone) as (_ & _ & _ & _ & [[Hidle Hnone]|[Hbusy _]]).
      * rewrite Hnone. repeat split. right. split; reflexivity.
      * unfold suggestAngles_disabled in Hdis. rewrite Hbusy, Hone in Hdis.
        rewrite orb_true_r in Hdis. discriminate Hdis.
    + exfalso. apply generateCampaign_rendered_step in Hshown.
      destruct (generateCampaignAssets_start_cases (app p)) as [E|(c' & q' & E)];
        rewrite E in Hstart; [discriminate Hstart|].
      injection Hstart as Hs _ _. rewrite <- Hs in Hone. cbn in Hone. lia.
    + exfalso. apply step4_rendered_step in Hshown.
      destruct (step_currentStep e p p' Hstep) as [H|H]; lia.
    + assert (Hprev : currentStep (app p) = 1).
      { destruct (step_currentStep e p p' Hstep) as [H|H]; lia. }
      destruct (IH Hprev) as (Hangles & Hsel & Hassets & Hbanner & [[_ Hnone]|[_ Hone']]).
      { exfalso. rewrite Hnone in Hset.
        destruct Hset as [(r & H & _)|[(c & r & H & _)|(r & H & _)]];
          destruct i; discriminate H. }
      rewrite Hone' in Hset, Hfl.
      destruct Hset as [(r & Hnth & H)|[(c & r & Hnth & _)|(r & Hnth & _)]].
      * rewrite Hfl, (removeNth_singleton i _ _ Hnth), H.
        destruct (getMarketingAngles_finish_cases r (app p)) as [(a & E)|(m & E)];
          rewrite E in *.
        -- rewrite H in Hone. cbn in Hone. discriminate Hone.
        -- cbn. repeat split; try assumption. left. split; reflexivity.
      * exfalso. destruct i as [|[|i]]; discriminate Hnth.
      * exfalso. destruct i as [|[|i]]; discriminate Hnth.
Qed.

Lemma generateImage_result_png (prompt : string) (parts : list Part) (img : string) :
  generateImage_result prompt parts = Returned img -> isPngDataUrl img.
Proof.
  unfold generateImage_result.
  destruct (newImageBase64 parts) as [d|]; [|discriminate].
  destruct (truthy d) eqn:Hd; [|discriminate].
  intros [= <-]. exists d. split; [exact Hd | reflexivity].
Qed.

Lemma generateImage_returned (photo : option string) (prompt : string)
    (response : Outcome (list Part)) (img : string) :
  generateImage photo prompt response = Returned img <->
  truthy_opt photo = true /\
  exists parts, response = Returned parts /\ generateImage_result prompt parts = Returned img.
Proof.
  unfold generateImage, generateImage_request. split.
  - destruct photo as [p|]; [|discriminate]. cbn [truthy_opt].
    destruct (truthy p); [|discriminate].
    destruct response as [parts|e]; [|discriminate].
    intros H. split; [reflexivity|]. exists parts. split; [reflexivity | exact H].
  - intros [Hphoto (parts & -> & H)].
    destruct photo as [p|]; cbn [truthy_opt] in Hphoto; [|discriminate].
    rewrite Hphoto. exact H.
Qed.

Lemma generateImage_png (photo : option string) (prompt : string)
    (response : Outcome (list Part)) (img : string) :
  generateImage photo prompt response = Returned img -> isPngDataUrl img.
Proof.
  intros H. apply generateImage_returned in H as [_ (parts & _ & H)].
  exact (generateImage_result_png prompt parts img H).
Qed.

Lemma campaignResults_some (c : CampaignClosure) (r : CampaignResponses)
    iI iT fI fT bI bT :
  campaignResults c r = Some (iI, iT, fI, fT, bI, bT) <->
  generateImage (closurePhoto c) (instagramImagePrompt (closurePrompts c))
    (instagramImageResponse r) = Returned iI /\
  generateText false (instagramTextResponse r) = Returned iT /\
  generateImage (closurePhoto c) (facebookImagePrompt (closurePrompts c))
    (facebookImageResponse r) = Returned fI /\
  generateText false (facebookTextResponse r) = Returned fT /\
  generateImage (closurePhoto c) (bannerImagePrompt (closurePrompts c))
    (bannerImageResponse r) = Returned bI /\
  generateText true (bannerTextResponse r) = Returned bT.
Proof.
  unfold campaignResults, promiseAll6. cbv zeta.
  destruct (generateImage (closurePhoto c) (instagramImagePrompt (closurePrompts c))
              (instagramImageResponse r));
  destruct (generateText false (instagramTextResponse r));
  destruct (generateImage (closurePhoto c) (facebookImagePrompt (closurePrompts c))
              (facebookImageResponse r));
  destruct (generateText false (facebookTextResponse r));
  destruct (generateImage (closurePhoto c) (bannerImagePrompt (closurePrompts c))
              (bannerImageResponse r));
  destruct (generateText true (bannerTextResponse r));
  (split; [intros H; try discriminate H; injection H as <- <- <- <- <- <-;
           repeat split
          | intros (H1 & H2 & H3 & H4 & H5 & H6); congruence]).
Qed.

Lemma step_imagesArePng (e : Event) (p p' : Page) :
  step e p = Some p' -> imagesArePng (app p) -> imagesArePng (app p').
Proof.
  intros Hstep [Hassets Hbanner].
  destruct (step_cases e p p' Hstep)
    as [(_ & Happ)|[(_ & _ & Happ & Hreq)|[(_ & _ & c & q & _ & Hstart)|[(_ & _ & _ & Happ & Hreq)|(i & _ & Hset)]]]].
  - destruct Happ as [H|[(v & H)|[(v & H)|[(v & H)|[(v & H)|[(v & _ & H)|[(a & _ & _ & H)|(m & _ & H)]]]]]]];
      rewrite H; split; assumption.
  - rewrite Happ.
    destruct (getMarketingAngles_start_cases (app p)) as [E|E]; rewrite E;
      [split; assumption|].
    split; [constructor | discriminate].
  - destruct (generateCampaignAssets_start_cases (app p)) as [E|(c' & q' & E)];
      rewrite E in Hstart; [discriminate Hstart|].
    injection Hstart as <- _ _. split; [constructor | discriminate].
  - rewrite Happ.
    destruct (generateBannerVariation_start_cases (app p)) as [E|[(m & E)|(q & E)]];
      rewrite E; try (split; assumption).
    split; [exact Hassets | discriminate].
  - destruct Hset as [(r & _ & H)|[(c & r & _ & H)|(r & _ & H)]]; rewrite H.
    + destruct (getMarketingAngles_finish_cases r (app p)) as [(a & E)|(m & E)];
        rewrite E; split; assumption.
    + destruct (generateCampaignAssets_finish_cases c r (app p))
        as [(iI & iT & fI & fT & bI & bT & Hres & E)|(m & E)];
        rewrite E; [|split; assumption].
      apply campaignResults_some in Hres as (HiI & _ & HfI & _ & HbI & _).
      split; [|exact Hbanner]. cbn [campaignAssets setIsLoading setCurrentStep setCampaignAssets].
      repeat constructor; cbn [CampaignAsset.image]; eapply generateImage_png; eassumption.
    + destruct (generateBannerVariation_finish_cases r (app p)) as [(d & Hd & E)|(m & E)];
        rewrite E; [|split; assumption].
      split; [exact Hassets|]. cbn. intros banner [= <-]. exists d. split; [exact Hd | reflexivity].
Qed.

Lemma reachable_imagesArePng (p : Page) : reachable p -> imagesArePng (app p).
Proof.
  induction 1 as [|e p p' _ IH Hstep].
  - split; [constructor | discriminate].
  - exact (step_imagesArePng e p p' Hstep IH).
Qed.

(** X5.  On every reachable page the image of every stored asset, and the
    edited banner when there is one, is [data:image/png;base64,] followed by
    a non-empty payload: the images are labelled PNG whatever MIME type the
    service reported for them. *)
Theorem stored_images_are_png (p : Page) :
  reachable p ->
  Forall (fun a => isPngDataUrl (CampaignAsset.image a)) (campaignAssets (app p)) /\
  (forall banner, editedBanner (app p) = Some banner -> isPngDataUrl banner).
Proof.
  induction 1 as [|e p p' _ IH Hstep].
  - split; [constructor | discriminate].
  - exact (step_imagesArePng e p p' Hstep IH).
Qed.

(** X4.  On every reachable page that shows steps 3 and 4, the lookup of
    the original banner in the render (line 366) finds the third asset, so
    its non-null assertion holds, and the image shown is a PNG data URL. *)
Theorem step4_always_renders (p : Page) :
  reachable p ->
  step4_rendered (app p) = true ->
  exists banner,
    nth_error (campaignAssets (app p)) 2 = Some banner /\
    originalBannerImage (app p) = Some (CampaignAsset.image banner) /\
    isPngDataUrl (CampaignAsset.image banner).
Proof.
  intros Hreach Hshown.
  destruct (shape_find _ (reachable_shape p Hreach))
    as [[Hnil _]|(a & b & c & Heq & _ & Hfind)].
  - unfold step4_rendered in Hshown. rewrite Hnil in Hshown.
    rewrite andb_false_r in Hshown. discriminate Hshown.
  - exists c. unfold originalBannerImage. rewrite Hfind, Heq.
    split; [reflexivity|]. split; [reflexivity|].
    destruct (reachable_imagesArePng p Hreach) as [Hall _].
    rewrite Heq in Hall. inversion Hall as [|? ? _ Hall']. inversion Hall' as [|? ? _ Hall''].
    inversion Hall'' as [|? ? Hc _]. exact Hc.
Qed.

Lemma generateImage_result_returned (prompt : string) (parts : list Part) :
  returned (generateImage_result prompt parts) = true <->
  exists blob, firstInline parts blob /\ truthy (data blob) = true.
Proof.
  unfold generateImage_result. split.
  - destruct (newImageBase64 parts) as [d|] eqn:Hscan; [|discriminate].
    destruct (newImageBase64_some parts d Hscan) as (blob & Hfirst & <-).
    destruct (truthy (data blob)) eqn:Hd; [|discriminate].
    intros _. exists blob. split; assumption.
  - intros (blob & Hfirst & Hd).
    rewrite (newImageBase64_first parts blob Hfirst), Hd. reflexivity.
Qed.

Lemma generateImage_usable (photo : option string) (prompt : string)
    (response : Outcome (list Part)) :
  returned (generateImage photo prompt response) = true <->
  truthy_opt photo = true /\ usable response.
Proof.
  unfold usable. split.
  - destruct (generateImage photo prompt response) as [img|] eqn:H; [|discriminate].
    intros _. apply generateImage_returned in H as [Hphoto (parts & Hresp & Hres)].
    split; [exact Hphoto|].
    assert (Hret : returned (generateImage_result prompt parts) = true)
      by (rewrite Hres; reflexivity).
    apply generateImage_result_returned in Hret as (blob & Hfirst & Hd).
    exists parts, blob. repeat split; assumption.
  - intros [Hphoto (parts & blob & -> & Hfirst & Hd)].
    assert (Hret : returned (generateImage_result prompt parts) = true)
      by (apply generateImage_result_returned; exists blob; split; assumption).
    destruct (generateImage_result prompt parts) as [img|] eqn:Hres; [|discriminate].
    assert (H : generateImage photo prompt (Returned parts) = Returned img)
      by (apply generateImage_returned; split; [exact Hphoto|]; exists parts; split; auto).
    rewrite H. reflexivity.
Qed.

(** X6.  The six sub-calls of a campaign all succeed exactly when the photo
    is present, each of the three image responses has a first inline part
    with non-empty data, the two caption calls return, and the headline call
    returns a text that [JSON.parse] reads. *)
Theorem campaign_succeeds_iff (c : CampaignClosure) (r : CampaignResponses) :
  sixSucceed c r = true <->
  truthy_opt (closurePhoto c) = true /\
  usable (instagramImageResponse r) /\
  usable (facebookImageResponse r) /\
  usable (bannerImageResponse r) /\
  returned (instagramTextResponse r) = true /\
  returned (facebookTextResponse r) = true /\
  exists t lines, bannerTextResponse r = Returned t /\ parsed t = Some lines.
Proof.
  unfold sixSucceed. cbv zeta. repeat rewrite andb_true_iff.
  repeat rewrite generateImage_usable.
  assert (Hplain : forall resp, returned (generateText false resp) = returned resp)
    by (intros [t|e]; reflexivity).
  assert (Hjson : forall resp, returned (generateText true resp) = true <->
            exists t lines, resp = Returned t /\ parsed t = Some lines).
  { intros [t|e]; cbn [generateText]; unfold JSON_parse.
    - destruct (parsed t) as [lines|] eqn:Hp; split.
      + intros _. exists t, lines. split; [reflexivity | exact Hp].
      + reflexivity.
      + discriminate.
      + intros (t' & lines & [= <-] & H). congruence.
    - split; [discriminate|]. intros (t & lines & H & _). discriminate H. }
  rewrite !Hplain, Hjson. tauto.
Qed.

(** X7.  With the campaign button shown and enabled but the product name
    emptied or the photo lost since the angles were generated, pressing the
    button does nothing at all: no request, no error message, no change of
    the page. *)
Theorem campaign_button_silent_noop (p : Page) :
  generateCampaign_rendered (app p) = true ->
  generateCampaign_disabled (app p) = false ->
  truthy (productName (app p)) = false \/ truthy_opt (productPhoto (app p)) = false ->
  generateCampaignAssets_start (app p) = (app p, None, []) /\
  step ClickGenerateCampaign p = Some p.
Proof.
  intros Hshown Henabled Hmissing.
  assert (Hstart : generateCampaignAssets_start (app p) = (app p, None, [])).
  { unfold generateCampaignAssets_start.
    destruct (selectedAngle (app p)); [|reflexivity].
    destruct Hmissing as [H|H]; rewrite H; cbn [negb orb];
      [|rewrite orb_true_r]; reflexivity. }
  split; [exact Hstart|].
  cbn [step]. rewrite Hshown, Henabled, Hstart. destruct p; reflexivity.
Qed.

(** X8.  A call of [generateCampaignAssets] that passes its guard sends
    exactly six requests in the order of line 156: the three image requests
    carry the photo, only the banner headline request carries a schema (an
    array of strings), and the photo check inside [generateImage] never
    fires. *)
Theorem campaign_dispatches_six
    (s s1 : AppState) (c : CampaignClosure) (reqs : list Request) :
  generateCampaignAssets_start s = (s1, Some c, reqs) ->
  exists photo angle,
    productPhoto s = Some photo /\ selectedAngle s = Some angle /\
    c = mkClosure (Some photo) (campaignPrompts s angle) /\
    reqs =
      [ ImageRequest [photo] (instagramImagePrompt (campaignPrompts s angle));
        TextRequest (instagramTextPrompt (campaignPrompts s angle)) None;
        ImageRequest [photo] (facebookImagePrompt (campaignPrompts s angle));
        TextRequest (facebookTextPrompt (campaignPrompts s angle)) None;
        ImageRequest [photo] (bannerImagePrompt (campaignPrompts s angle));
        TextRequest (bannerTextPrompt (campaignPrompts s angle)) (Some StringArray) ] /\
    (forall prompt,
       generateImage_request (closurePhoto c) prompt = Returned (ImageRequest [photo] prompt)).
Proof.
  unfold generateCampaignAssets_start.
  destruct (selectedAngle s) as [angle|]; [|discriminate].
  destruct (truthy (productName s)); [|discriminate].
  destruct (productPhoto s) as [photo|] eqn:Hphoto; [|discriminate].
  cbn [truthy_opt]. destruct (truthy photo) eqn:Htruthy; [|discriminate].
  cbn [negb orb]. intros [= <- <- <-].
  exists photo, angle. split; [reflexivity|]. split; [reflexivity|]. split; [reflexivity|].
  unfold imageRequests, generateImage_request. cbn [closurePhoto]. rewrite Htruthy.
  split; [reflexivity|]. intros prompt. reflexivity.
Qed.

(** *** Strings *)

Lemma startsWith_app (p s : string) : startsWith p (p ++ s) = true.
Proof.
  induction p as [|a p IH]; [reflexivity|].
  cbn. rewrite Ascii.eqb_refl. exact IH.
Qed.

Lemma includes_unfold (s p : string) :
  includes s p =
  startsWith p s || match s with EmptyString => false | String _ s' => includes s' p end.
Proof. destruct s; reflexivity. Qed.

Lemma includes_app_r (a s p : string) : includes s p = true -> includes (a ++ s) p = true.
Proof.
  intros H. induction a as [|c a IH]; [exact H|].
  cbn [append]. rewrite includes_unfold, IH. apply orb_true_r.
Qed.

Lemma includes_mid (a b c : string) : includes (a ++ b ++ c) b = true.
Proof.
  apply includes_app_r. rewrite includes_unfold, startsWith_app. reflexivity.
Qed.

Lemma split_lacks (sep : ascii) (s : string) : lacks sep s = true -> split sep s = [s].
Proof.
  induction s as [|c s IH]; [reflexivity|].
  cbn. intros H. apply andb_prop in H as [Hc Hs].
  apply negb_true_iff in Hc. rewrite Hc, (IH Hs). reflexivity.
Qed.

Lemma split_app (sep : ascii) (header rest : string) :
  lacks sep header = true ->
  split sep (header ++ String sep rest) = header :: split sep rest.
Proof.
  induction header as [|c header IH]; cbn.
  - intros _. rewrite Ascii.eqb_refl. reflexivity.
  - intros H. apply andb_prop in H as [Hc Hs].
    apply negb_true_iff in Hc. rewrite Hc, (IH Hs). reflexivity.
Qed.

Lemma greedyBefore_lacks (m : ascii) (marker s : string) :
  lacks m s = true -> greedyBefore (String m marker) s = None.
Proof.
  induction s as [|c s IH]; [reflexivity|].
  cbn [lacks greedyBefore]. intros H. apply andb_prop in H as [Hc Hs].
  apply negb_true_iff in Hc. rewrite (IH Hs).
  destruct (isLineTerminator (String c s)); cbn [startsWith];
    rewrite Ascii.eqb_sym, Hc; reflexivity.
Qed.

(** A byte that is no part of an encoded line separator cannot complete one
    that the bytes before it would begin. *)
Lemma isLineTerminator_before (m : ascii) (s tail : string) :
  Ascii.eqb m (ascii_of_nat 128) = false ->
  Ascii.eqb m (ascii_of_nat 168) = false ->
  Ascii.eqb m (ascii_of_nat 169) = false ->
  s <> EmptyString ->
  isLineTerminator (s ++ String m tail) = isLineTerminator s.
Proof.
  intros H128 H168 H169 Hs.
  destruct s as [|c [|d [|e s]]]; [contradiction Hs; reflexivity| | |];
    cbn [append isLineTerminator].
  - destruct tail; [reflexivity|]. rewrite H128. reflexivity.
  - rewrite H168, H169. cbn [orb]. rewrite andb_false_r. reflexivity.
  - reflexivity.
Qed.

Lemma greedyBefore_capture (m : ascii) (marker capture rest : string) :
  noLineTerminator capture = true ->
  (forall t, isLineTerminator (String m t) = false) ->
  Ascii.eqb m (ascii_of_nat 128) = false ->
  Ascii.eqb m (ascii_of_nat 168) = false ->
  Ascii.eqb m (ascii_of_nat 169) = false ->
  lacks m (marker ++ rest) = true ->
  greedyBefore (String m marker) (capture ++ String m marker ++ rest) = Some capture.
Proof.
  intros Hcap Hm H128 H168 H169 Hrest.
  change (String m marker ++ rest) with (String m (marker ++ rest)).
  assert (Hbase : greedyBefore (String m marker) (String m (marker ++ rest))
                  = Some EmptyString).
  { cbn [greedyBefore]. rewrite Hm, (greedyBefore_lacks m marker _ Hrest).
    change (String m (marker ++ rest)) with (String m marker ++ rest).
    rewrite startsWith_app. reflexivity. }
  induction capture as [|c capture IH]; [exact Hbase|].
  cbn [noLineTerminator] in Hcap. apply andb_prop in Hcap as [Hc Hcap].
  apply negb_true_iff in Hc.
  change ((String c capture) ++ String m (marker ++ rest))
    with (String c (capture ++ String m (marker ++ rest))).
  cbn [greedyBefore].
  change (String c (capture ++ String m (marker ++ rest)))
    with ((String c capture) ++ String m (marker ++ rest)).
  rewrite (isLineTerminator_before m (String c capture) (marker ++ rest) H128 H168 H169)
    by discriminate.
  rewrite Hc.
  change ((String c capture) ++ String m (marker ++ rest))
    with (String c (capture ++ String m (marker ++ rest))).
  rewrite (IH Hcap). reflexivity.
Qed.

Lemma afterPrefix_app (p s : string) : afterPrefix p (p ++ s) = Some s.
Proof.
  induction p as [|a p IH]; [destruct s; reflexivity|].
  cbn. rewrite Ascii.eqb_refl. exact IH.
Qed.

Lemma afterPrefix_none (p s : string) : startsWith p s = false -> afterPrefix p s = None.
Proof.
  revert s. induction p as [|a p IH]; intros s; [discriminate|].
  destruct s as [|b s]; [reflexivity|].
  cbn. destruct (Ascii.eqb a b); [apply IH | reflexivity].
Qed.

Lemma matchDataUrl_none (s : string) : includes s "data:" = false -> matchDataUrl s = None.
Proof.
  induction s as [|c s IH]; rewrite includes_unfold; intros H;
    apply orb_false_elim in H as [Hhere Hlater].
  - reflexivity.
  - cbn [matchDataUrl]. rewrite (afterPrefix_none _ _ Hhere). exact (IH Hlater).
Qed.

Lemma base64Data_payload (header payload : string) :
  lacks ","%char header = true ->
  lacks ","%char payload = true ->
  base64Data (header ++ "," ++ payload) = Some payload.
Proof.
  intros Hheader Hpayload. unfold base64Data.
  change (ascii_of_nat 44) with ","%char.
  change ("," ++ payload) with (String ","%char payload).
  rewrite (split_app _ _ _ Hheader), (split_lacks _ _ Hpayload). reflexivity.
Qed.

(** X11.  [url.split(',')[1]] on a URL whose header has no comma is the
    payload up to its first comma, so the whole payload when it has none;
    on a string without comma it is [undefined]. *)
Theorem base64Data_of_data_url (header payload : string) :
  lacks ","%char header = true ->
  base64Data (header ++ "," ++ payload) =
    Some (hd EmptyString (split ","%char payload)) /\
  (lacks ","%char payload = true -> base64Data (header ++ "," ++ payload) = Some payload) /\
  base64Data header = None.
Proof.
  intros Hheader. unfold base64Data.
  change (ascii_of_nat 44) with ","%char.
  change ("," ++ payload) with (String ","%char payload).
  rewrite (split_app _ _ _ Hheader), (split_lacks _ _ Hheader).
  split; [|split; [|reflexivity]].
  - cbn [nth_error]. destruct payload as [|c payload]; [reflexivity|].
    cbn [split]. destruct (Ascii.eqb c ","%char); [reflexivity|].
    destruct (split ","%char payload); reflexivity.
  - intros Hpayload. rewrite (split_lacks _ _ Hpayload). reflexivity.
Qed.

(** The payload of a JPEG data URL. *)
Lemma base64Data_of_data_url_witness :
  base64Data "data:image/jpeg;base64,UEhPVE8=" = Some "UEhPVE8=".
Proof.
  exact (proj1 (proj2 (base64Data_of_data_url "data:image/jpeg;base64" "UEhPVE8=" eq_refl))
           eq_refl).
Defined.

(** X12.  For a URL data:MIME;base64,PAYLOAD whose MIME part has no line
    terminator and whose payload has no semicolon, the pattern of lines 111
    and 204 captures the MIME part, and the MIME type sent is that part, or
    image/png when it is empty. *)
Theorem mimeTypeOf_data_url (mime payload : string) :
  noLineTerminator mime = true ->
  lacks ";"%char payload = true ->
  matchDataUrl ("data:" ++ mime ++ ";base64," ++ payload) = Some mime /\
  mimeTypeOf ("data:" ++ mime ++ ";base64," ++ payload) =
    (if truthy mime then mime else "image/png").
Proof.
  intros Hmime Hpayload.
  assert (Hmatch : matchDataUrl ("data:" ++ mime ++ ";base64," ++ payload) = Some mime).
  { assert (Hgreedy : greedyBefore ";base64," (mime ++ ";base64," ++ payload) = Some mime).
    { apply (greedyBefore_capture ";"%char "base64," mime payload Hmime);
        try reflexivity.
      cbn. exact Hpayload. }
    destruct ("data:" ++ mime ++ ";base64," ++ payload) as [|c rest] eqn:Hurl;
      [discriminate Hurl|].
    cbn [matchDataUrl]. rewrite <- Hurl, afterPrefix_app, Hgreedy. reflexivity. }
  split; [exact Hmatch|]. unfold mimeTypeOf. rewrite Hmatch. reflexivity.
Qed.

(** The MIME type of a JPEG data URL. *)
Lemma mimeTypeOf_data_url_witness :
  mimeTypeOf "data:image/jpeg;base64,UEhPVE8=" = "image/jpeg".
Proof.
  exact (proj2 (mimeTypeOf_data_url "image/jpeg" "UEhPVE8=" eq_refl eq_refl)).
Defined.

(** X13.  For a photo string in which data: does not occur the pattern
    does not match and the MIME type sent is the default image/png. *)
Theorem mimeTypeOf_default (url : string) :
  includes url "data:" = false -> mimeTypeOf url = "image/png".
Proof.
  intros H. unfold mimeTypeOf. rewrite (matchDataUrl_none url H). reflexivity.
Qed.

(** A string that is no data URL. *)
Lemma mimeTypeOf_default_witness : mimeTypeOf "blob:photo" = "image/png".
Proof. exact (mimeTypeOf_default "blob:photo" eq_refl). Defined.

Lemma includes_here (b c : string) : includes (b ++ c) b = true.
Proof. rewrite includes_unfold, startsWith_app. reflexivity. Qed.

Ltac mentions := repeat first [apply includes_here | apply includes_app_r].

(** X14.  The angles prompt contains the product name, the audience and the
    vibe verbatim.  Every campaign prompt but the banner image prompt
    contains the title of the selected angle, and the three text prompts and
    the banner image prompt contain the product name.  The prompts depend on
    the angle through its title only (its description is never sent), and
    the banner image prompt does not depend on the angle at all. *)
Theorem prompts_carry_inputs (s : AppState) (angle : MarketingAngle.t) :
  (includes (anglesPrompt s) (productName s) = true /\
   includes (anglesPrompt s) (targetAudience s) = true /\
   includes (anglesPrompt s) (desiredVibe s) = true) /\
  (includes (instagramImagePrompt (campaignPrompts s angle)) (MarketingAngle.title angle) = true /\
   includes (instagramTextPrompt (campaignPrompts s angle)) (MarketingAngle.title angle) = true /\
   includes (facebookImagePrompt (campaignPrompts s angle)) (MarketingAngle.title angle) = true /\
   includes (facebookTextPrompt (campaignPrompts s angle)) (MarketingAngle.title angle) = true /\
   includes (bannerTextPrompt (campaignPrompts s angle)) (MarketingAngle.title angle) = true) /\
  (includes (instagramTextPrompt (campaignPrompts s angle)) (productName s) = true /\
   includes (facebookTextPrompt (campaignPrompts s angle)) (productName s) = true /\
   includes (bannerImagePrompt (campaignPrompts s angle)) (productName s) = true /\
   includes (bannerTextPrompt (campaignPrompts s angle)) (productName s) = true) /\
  (forall other,
     MarketingAngle.title other = MarketingAngle.title angle ->
     campaignPrompts s other = campaignPrompts s angle) /\
  (forall other,
     bannerImagePrompt (campaignPrompts s other) = bannerImagePrompt (campaignPrompts s angle)).
Proof.
  unfold anglesPrompt, campaignPrompts.
  cbn [instagramImagePrompt instagramTextPrompt facebookImagePrompt facebookTextPrompt
       bannerImagePrompt bannerTextPrompt].
  split; [split; [|split]; mentions|].
  split; [split; [|split; [|split; [|split]]]; mentions|].
  split; [split; [|split; [|split]]; mentions|].
  split.
  - intros other ->. reflexivity.
  - intros other. reflexivity.
Qed.

(** Two angles with one title give the same prompts. *)
Lemma prompts_carry_inputs_witness :
  campaignPrompts initialState (MarketingAngle.mk "Less Is Fresh" "Another sentence.")
  = campaignPrompts initialState Session.lessIsFresh.
Proof.
  apply (prompts_carry_inputs initialState Session.lessIsFresh). reflexivity.
Defined.

(** X10.  A click on an angle card is accepted exactly when the step is 2 or
    later and the index is inside the batch; it then selects that angle,
    suspends nothing and changes nothing else (the busy flag plays no part).
    The cards highlighted afterwards are exactly those whose title is the
    selected title. *)
Theorem angle_card_click (index : nat) (p p' : Page) :
  step (ClickAngleCard index) p = Some p' <->
  2 <= currentStep (app p) /\
  exists angle,
    nth_error (marketingAngles (app p)) index = Some angle /\
    p' = mkPage (setSelectedAngle (Some angle) (app p)) (inFlight p) /\
    forall other,
      angleCardSelected (app p') other = true <->
      MarketingAngle.title other = MarketingAngle.title angle.
Proof.
  cbn [step]. unfold step2_rendered. split.
  - destruct (2 <=? currentStep (app p)) eqn:Hstep; [|discriminate].
    apply Z.leb_le in Hstep.
    destruct (nth_error (marketingAngles (app p)) index) as [angle|]; [|discriminate].
    intros [= <-]. split; [exact Hstep|].
    exists angle. split; [reflexivity|]. split; [reflexivity|].
    intros other. unfold angleCardSelected. cbn [app selectedAngle setSelectedAngle].
    rewrite String.eqb_eq. split; congruence.
  - intros (Hstep & angle & Hnth & -> & _).
    apply Z.leb_le in Hstep. rewrite Hstep, Hnth. reflexivity.
Qed.

(** The card clicked in the sample session is highlighted. *)
Lemma angle_card_click_witness :
  2 <= currentStep (app (Session.pageAfter Session.toAngleSelected)) /\
  angleCardSelected (app (Session.pageAfter Session.toAngleSelected)) Session.lessIsFresh = true.
Proof.
  assert (Hstep : step (ClickAngleCard 1)
            (Session.pageAfter
               (Session.fillInputs ++
                [ ClickSuggestAngles;
                  Settle 0 (AnglesSettled (Session.anglesResponse
                    [Session.pureRoots; Session.lessIsFresh; Session.dailyRitual])) ]))
          = Some (Session.pageAfter Session.toAngleSelected))
    by (vm_compute; reflexivity).
  destruct (proj1 (angle_card_click _ _ _) Hstep) as (Hpast & angle & Hnth & _ & Hsel).
  split.
  - vm_compute. discriminate.
  - apply Hsel. vm_compute in Hnth. injection Hnth as <-. reflexivity.
Defined.

(** X15.  No click on a card or button and no settling of a call changes
    the user's inputs: the photo, the product name, the audience, the vibe
    and the variation instruction are what they were. *)
Theorem handlers_keep_inputs (e : Event) (p p' : Page) :
  editsInput e = false ->
  step e p = Some p' ->
  inputsOf (app p') = inputsOf (app p).
Proof.
  intros Hedit Hstep. destruct e; try discriminate Hedit; cbn [step] in Hstep.
  - destruct (step2_rendered (app p)); [|discriminate].
    destruct (nth_error (marketingAngles (app p)) index); [|discriminate].
    injection Hstep as <-. reflexivity.
  - destruct (suggestAngles_disabled (app p)); [discriminate|].
    destruct (getMarketingAngles_start_cases (app p)) as [E|E]; rewrite E in Hstep;
      injection Hstep as <-; reflexivity.
  - destruct (generateCampaign_rendered (app p) && negb (generateCampaign_disabled (app p)));
      [|discriminate].
    destruct (generateCampaignAssets_start_cases (app p)) as [E|(c & q & E)];
      rewrite E in Hstep; injection Hstep as <-; reflexivity.
  - destruct (step4_rendered (app p) && negb (generateVariation_disabled (app p)));
      [|discriminate].
    destruct (generateBannerVariation_start_cases (app p)) as [E|[(m & E)|(q & E)]];
      rewrite E in Hstep; injection Hstep as <-; reflexivity.
  - destruct (nth_error (inFlight p) index) as [[|c|]|]; destruct o; try discriminate Hstep;
      injection Hstep as <-; cbn [app].
    + destruct (getMarketingAngles_finish_cases r (app p)) as [(a & E)|(m & E)];
        rewrite E; reflexivity.
    + destruct (generateCampaignAssets_finish_cases c r (app p))
        as [(iI & iT & fI & fT & bI & bT & _ & E)|(m & E)]; rewrite E; reflexivity.
    + destruct (generateBannerVariation_finish_cases r (app p)) as [(d & _ & E)|(m & E)];
        rewrite E; reflexivity.
Qed.

(** The inputs before and after the variation of the sample session settles. *)
Lemma handlers_keep_inputs_witness :
  inputsOf (app (Session.pageAfter Session.toEditedBanner)) =
  inputsOf (app (Session.pageAfter
    (Session.toAssetsReady ++
     [ ChangeBannerVariationPrompt "make background lime green"; ClickGenerateVariation ]))).
Proof.
  apply (handlers_keep_inputs
           (Settle 0 (VariationSettled (Session.imageResponse "TElNRQ==")))).
  - reflexivity.
  - vm_compute. reflexivity.
Defined.

(** X16.  Right after a call of [generateBannerVariation] is dispatched from
    a page at step 3, the Edited Banner card shows the spinner.  When a
    variation settles, in whatever state the page is then, the card does not
    show the spinner: it shows the new image when the response yields one,
    and otherwise the edited banner stored at that moment, or the placeholder
    when there is none.  So when nothing else happened since the dispatch,
    the card shows the placeholder after a failure. *)
Theorem edited_banner_card_lifecycle
    (s now : AppState) (banner : CampaignAsset.t) (photo : string)
    (r : Outcome (list Part)) :
  currentStep s = 3 ->
  truthy (bannerVariationPrompt s) = true ->
  find isWebBanner (campaignAssets s) = Some banner ->
  productPhoto s = Some photo ->
  truthy photo = true ->
  editedBannerCard (fst (generateBannerVariation_start s)) = CardSpinner /\
  editedBannerCard (generateBannerVariation_finish r now) <> CardSpinner /\
  match r with
  | Threw _ =>
      editedBannerCard (generateBannerVariation_finish r now)
        = match editedBanner now with
          | Some kept => if truthy kept then CardImage kept else CardPlaceholder
          | None => CardPlaceholder
          end /\
      editedBannerCard (generateBannerVariation_finish r (fst (generateBannerVariation_start s)))
        = CardPlaceholder
  | Returned parts =>
      match generateImage_result (bannerVariationPrompt s) parts with
      | Returned img => editedBannerCard (generateBannerVariation_finish r now) = CardImage img
      | Threw _ =>
          editedBannerCard (generateBannerVariation_finish r now)
            = match editedBanner now with
              | Some kept => if truthy kept then CardImage kept else CardPlaceholder
              | None => CardPlaceholder
              end /\
          editedBannerCard
            (generateBannerVariation_finish r (fst (generateBannerVariation_start s)))
            = CardPlaceholder
      end
  end.
Proof.
  intros Hstep Hprompt Hfind Hphoto Htruthy.
  assert (Hstart : fst (generateBannerVariation_start s) =
    setEditedBanner None (setError None (setLoadingMessage "Generating variation..."
      (setIsLoading true s)))).
  { unfold generateBannerVariation_start.
    rewrite Hprompt, Hfind, Hphoto, Htruthy. reflexivity. }
  rewrite Hstart.
  assert (Hidle : forall v e, editedBannerCard (setIsLoading false (setError e
                    (setEditedBanner v now))) <> CardSpinner).
  { intros v e. unfold editedBannerCard.
    cbn [isLoading editedBanner setIsLoading setError setEditedBanner andb].
    destruct v as [b|]; [destruct (truthy b)|]; discriminate. }
  assert (Hkept : forall e,
    editedBannerCard (setIsLoading false (setError e now))
    = match editedBanner now with
      | Some kept => if truthy kept then CardImage kept else CardPlaceholder
      | None => CardPlaceholder
      end).
  { intros e. unfold editedBannerCard.
    cbn [isLoading editedBanner setIsLoading setError andb]. reflexivity. }
  split; [|split].
  - unfold editedBannerCard.
    cbn [isLoading currentStep editedBanner setEditedBanner setError setLoadingMessage
         setIsLoading truthy_opt negb andb].
    rewrite Hstep. reflexivity.
  - unfold generateBannerVariation_finish.
    destruct r as [parts|e];
      [destruct (newImageBase64 parts) as [d|]; [destruct (truthy d)|]|].
    + unfold editedBannerCard.
      cbn [isLoading editedBanner setIsLoading setEditedBanner andb].
      destruct (truthy (pngDataUrl d)); discriminate.
    + exact (Hidle (editedBanner now) _).
    + exact (Hidle (editedBanner now) _).
    + exact (Hidle (editedBanner now) _).
  - unfold generateBannerVariation_finish, generateImage_result.
    destruct r as [parts|e]; [|split; [apply Hkept | reflexivity]].
    destruct (newImageBase64 parts) as [d|]; [|split; [apply Hkept | reflexivity]].
    destruct (truthy d); [reflexivity|]. split; [apply Hkept | reflexivity].
Qed.

(** The card while a second variation of the sample session is generated. *)
Lemma edited_banner_card_lifecycle_witness :
  editedBannerCard
    (fst (generateBannerVariation_start (app (Session.pageAfter Session.toEditedBanner))))
  = CardSpinner.
Proof.
  assert (Hstep : currentStep (app (Session.pageAfter Session.toEditedBanner)) = 3)
    by (vm_compute; reflexivity).
  assert (Hprompt : truthy (bannerVariationPrompt (app (Session.pageAfter Session.toEditedBanner)))
                    = true) by (vm_compute; reflexivity).
  assert (Hfind : find isWebBanner (campaignAssets (app (Session.pageAfter Session.toEditedBanner)))
                  = Some (CampaignAsset.mk "Web Banner (Graphic & Direct)"
                            "data:image/png;base64,QkFOTkVS"
                            (Headlines ["Less Is Fresh"; "Clean, Simply"; "Nature, Bottled"])))
    by (vm_compute; reflexivity).
  assert (Hphoto : productPhoto (app (Session.pageAfter Session.toEditedBanner))
                   = Some Session.photo) by (vm_compute; reflexivity).
  assert (Htruthy : truthy Session.photo = true) by reflexivity.
  exact (proj1 (edited_banner_card_lifecycle _ initialState _ _ (Threw ServiceError)
                  Hstep Hprompt Hfind Hphoto Htruthy)).
Defined.

(** X9.  On every reachable page, a call of [generateBannerVariation] that
    reaches the service sends one request whose references are the photo and
    the image of the third asset, the original banner, never the edited
    banner.  When the payload of that image has no comma, the second inline
    part carries exactly that payload as image/png.  The asset collection is
    the same after the call has settled, whatever the response. *)
Theorem variation_edits_original_banner
    (p : Page) (s1 : AppState) (reqs : list Request) (r : Outcome (list Part)) :
  reachable p ->
  generateBannerVariation_start (app p) = (s1, reqs) ->
  reqs <> [] ->
  exists photo banner base64,
    productPhoto (app p) = Some photo /\
    nth_error (campaignAssets (app p)) 2 = Some banner /\
    CampaignAsset.image banner = pngDataUrl base64 /\
    reqs = [ImageRequest [photo; CampaignAsset.image banner] (bannerVariationPrompt (app p))] /\
    (lacks ","%char base64 = true ->
     map contentParts reqs =
       [[ objectImagePart photo;
          InlinePart (mkInline (Some base64) "image/png");
          TextPart (bannerVariationPrompt (app p)) ]]) /\
    campaignAssets (generateBannerVariation_finish r s1) = campaignAssets (app p).
Proof.
  intros Hreach Hstart Hreqs.
  assert (Hassets : campaignAssets (generateBannerVariation_finish r s1)
                    = campaignAssets (app p)).
  { rewrite generateBannerVariation_finish_assets.
    pose proof (generateBannerVariation_start_assets (app p)) as H.
    rewrite Hstart in H. exact H. }
  destruct (reachable_imagesArePng p Hreach) as [Hpng _].
  unfold generateBannerVariation_start in Hstart.
  destruct (negb (truthy (bannerVariationPrompt (app p))));
    [injection Hstart as _ <-; contradiction Hreqs; reflexivity|].
  destruct (shape_find _ (reachable_shape p Hreach))
    as [[_ Hfind]|(a & b & c & Heq & _ & Hfind)]; rewrite Hfind in Hstart;
    [injection Hstart as _ <-; contradiction Hreqs; reflexivity|].
  destruct (productPhoto (app p)) as [photo|];
    [|injection Hstart as _ <-; contradiction Hreqs; reflexivity].
  destruct (truthy photo);
    [|injection Hstart as _ <-; contradiction Hreqs; reflexivity].
  injection Hstart as _ <-.
  rewrite Heq in Hpng. inversion Hpng as [|? ? _ Hpng']. inversion Hpng' as [|? ? _ Hpng''].
  inversion Hpng'' as [|? ? (base64 & _ & Himage) _].
  exists photo, c, base64.
  split; [reflexivity|]. split; [rewrite Heq; reflexivity|]. split; [exact Himage|].
  split; [reflexivity|]. split; [|exact Hassets].
  intros Hlacks. cbn [map contentParts app]. unfold cleanEnvironmentImagePart.
  rewrite Himage. unfold pngDataUrl.
  change ("data:image/png;base64," ++ base64)
    with ("data:image/png;base64" ++ "," ++ base64).
  rewrite (base64Data_payload "data:image/png;base64" base64 eq_refl Hlacks).
  reflexivity.
Qed.

(** A second variation of the sample session still refers to the original banner. *)
Lemma variation_edits_original_banner_witness :
  snd (generateBannerVariation_start (app (Session.pageAfter Session.toEditedBanner))) =
  [ImageRequest [Session.photo; "data:image/png;base64,QkFOTkVS"] "make background lime green"].
Proof.
  assert (Hreach : reachable (Session.pageAfter Session.toEditedBanner)).
  { apply (session_reachable Session.toEditedBanner). vm_compute. reflexivity. }
  assert (Hstart :
    generateBannerVariation_start (app (Session.pageAfter Session.toEditedBanner)) =
    (fst (generateBannerVariation_start (app (Session.pageAfter Session.toEditedBanner))),
     snd (generateBannerVariation_start (app (Session.pageAfter Session.toEditedBanner)))))
    by (vm_compute; reflexivity).
  assert (Hreqs :
    snd (generateBannerVariation_start (app (Session.pageAfter Session.toEditedBanner))) <> [])
    by (vm_compute; discriminate).
  destruct (variation_edits_original_banner _ _ _ (Threw ServiceError) Hreach Hstart Hreqs)
    as (photo & banner & base64 & Hphoto & Hnth & _ & Hreq & _).
  rewrite Hreq. vm_compute in Hphoto. vm_compute in Hnth.
  injection Hphoto as <-. injection Hnth as <-. vm_compute. reflexivity.
Defined.

(** X17.  Right after an accepted press of the angles button the campaign
    button and steps 3 and 4 are not rendered and there is no angle card:
    the page offers no campaign generation, no variation, no instruction
    input and no angle selection. *)
Theorem new_request_hides_downstream (p p' : Page) :
  step ClickSuggestAngles p = Some p' ->
  generateCampaign_rendered (app p') = false /\
  step4_rendered (app p') = false /\
  step ClickGenerateCampaign p' = None /\
  step ClickGenerateVariation p' = None /\
  (forall v, step (ChangeBannerVariationPrompt v) p' = None) /\
  (forall index, step (ClickAngleCard index) p' = None).
Proof.
  cbn [step]. destruct (suggestAngles_disabled (app p)) eqn:Hdis; [discriminate|].
  unfold suggestAngles_disabled in Hdis. apply orb_false_elim in Hdis as [Hc _].
  apply negb_false_iff in Hc.
  unfold getMarketingAngles_start. rewrite (isStep1Complete_guard _ Hc).
  intros [= <-].
  assert (Hcampaign : generateCampaign_rendered (app
    (mkPage (setEditedBanner None (setCampaignAssets [] (setSelectedAngle None
       (setMarketingAngles [] (setError None
          (setLoadingMessage "Brainstorming strategic angles..."
             (setIsLoading true (app p))))))))
       (inFlight p ++ [AnglesPending]))) = false).
  { unfold generateCampaign_rendered. apply andb_false_r. }
  assert (Hstep4 : step4_rendered (app
    (mkPage (setEditedBanner None (setCampaignAssets [] (setSelectedAngle None
       (setMarketingAngles [] (setError None
          (setLoadingMessage "Brainstorming strategic angles..."
             (setIsLoading true (app p))))))))
       (inFlight p ++ [AnglesPending]))) = false).
  { unfold step4_rendered. apply andb_false_r. }
  split; [exact Hcampaign|]. split; [exact Hstep4|].
  split; [cbn [step]; rewrite Hcampaign; reflexivity|].
  split; [cbn [step]; rewrite Hstep4; reflexivity|].
  split; [intros v; cbn [step]; rewrite Hstep4; reflexivity|].
  intros index. cbn [step].
  destruct (step2_rendered _); [|reflexivity].
  destruct index; reflexivity.
Qed.

(** After a new angles request at the end of the sample session no variation is offered. *)
Lemma new_request_hides_downstream_witness :
  step ClickGenerateVariation
    (Session.pageAfter (Session.toEditedBanner ++ [ClickSuggestAngles])) = None.
Proof.
  apply (new_request_hides_downstream (Session.pageAfter Session.toEditedBanner)).
  vm_compute. reflexivity.
Defined.


Lemma step_error_not_banner (e : Event) (p p' : Page) :
  reachable p ->
  step e p = Some p' ->
  error (app p) <> Some "Original banner not found. Please generate a campaign first." ->
  error (app p') <> Some "Original banner not found. Please generate a campaign first.".
Proof.
  intros Hreach Hstep Hprev. destruct e; cbn [step] in Hstep.
  - injection Hstep as <-. exact Hprev.
  - injection Hstep as <-. exact Hprev.
  - injection Hstep as <-. exact Hprev.
  - injection Hstep as <-. exact Hprev.
  - destruct (step4_rendered (app p)); [|discriminate].
    injection Hstep as <-. exact Hprev.
  - destruct (step2_rendered (app p)); [|discriminate].
    destruct (nth_error (marketingAngles (app p)) index); [|discriminate].
    injection Hstep as <-. exact Hprev.
  - destruct (suggestAngles_disabled (app p)); [discriminate|].
    destruct (getMarketingAngles_start_cases (app p)) as [E|E]; rewrite E in Hstep;
      injection Hstep as <-; [exact Hprev | discriminate].
  - destruct (generateCampaign_rendered (app p) && negb (generateCampaign_disabled (app p)));
      [|discriminate].
    destruct (generateCampaignAssets_start_cases (app p)) as [E|(c & q & E)];
      rewrite E in Hstep; injection Hstep as <-; [exact Hprev | discriminate].
  - destruct (step4_rendered (app p)) eqn:Hshown; [|discriminate].
    destruct (generateVariation_disabled (app p)); [discriminate|].
    cbn [negb andb] in Hstep.
    unfold generateBannerVariation_start in Hstep.
    destruct (negb (truthy (bannerVariationPrompt (app p))));
      [injection Hstep as <-; destruct p; exact Hprev|].
    destruct (shape_find _ (reachable_shape p Hreach))
      as [[Hnil _]|(a & b & c & _ & _ & Hfind)].
    { unfold step4_rendered in Hshown. rewrite Hnil in Hshown.
      rewrite andb_false_r in Hshown. discriminate Hshown. }
    rewrite Hfind in Hstep.
    destruct (productPhoto (app p)) as [photo|];
      [destruct (truthy photo)|]; injection Hstep as <-; discriminate.
  - destruct (nth_error (inFlight p) index) as [[|c|]|]; destruct o; try discriminate Hstep;
      injection Hstep as <-; cbn [app].
    + unfold getMarketingAngles_finish. destruct (parsedAngles r); [exact Hprev | discriminate].
    + unfold generateCampaignAssets_finish.
      destruct (campaignResults c r) as [[[[[[iI iT] fI] fT] bI] bT]|];
        [exact Hprev | discriminate].
    + unfold generateBannerVariation_finish.
      destruct r as [parts|t]; [|discriminate].
      destruct (newImageBase64 parts) as [d|]; [destruct (truthy d)|];
        [exact Hprev | discriminate | discriminate].
Qed.

(** X19.  On no reachable page is the error the banner-not-found message of
    line 187: the variation button is only rendered with the assets present,
    and then the lookup succeeds. *)
Theorem banner_not_found_never_shown (p : Page) :
  reachable p ->
  error (app p) <> Some "Original banner not found. Please generate a campaign first.".
Proof.
  induction 1 as [|e p p' Hreach IH Hstep]; [discriminate|].
  exact (step_error_not_banner e p p' Hreach Hstep IH).
Qed.

(** The sample session after the photo was lost. *)
Lemma banner_not_found_never_shown_witness :
  error (app (Session.pageAfter Session.toPhotoLost))
  <> Some "Original banner not found. Please generate a campaign first.".
Proof.
  apply banner_not_found_never_shown.
  apply (session_reachable Session.toPhotoLost). vm_compute. reflexivity.
Defined.

(** While the campaign of the sample session is generated, its handler is in flight. *)
Lemma busy_flag_has_handler_witness :
  inFlight (Session.pageAfter (Session.toAngleSelected ++ [ClickGenerateCampaign])) <> [].
Proof.
  apply busy_flag_has_handler.
  - apply (session_reachable (Session.toAngleSelected ++ [ClickGenerateCampaign])).
    vm_compute. reflexivity.
  - vm_compute. reflexivity.
Defined.

(** The sample session right after the first press: still step 1, nothing generated. *)
Lemma step_one_is_quiet_witness :
  campaignAssets (app (Session.pageAfter (Session.fillInputs ++ [ClickSuggestAngles]))) = [].
Proof.
  assert (Hreach : reachable (Session.pageAfter (Session.fillInputs ++ [ClickSuggestAngles]))).
  { apply (session_reachable (Session.fillInputs ++ [ClickSuggestAngles])).
    vm_compute. reflexivity. }
  assert (Hone : currentStep (app (Session.pageAfter (Session.fillInputs ++ [ClickSuggestAngles])))
                 = 1) by (vm_compute; reflexivity).
  exact (proj1 (proj2 (proj2 (step_one_is_quiet _ Hreach Hone)))).
Defined.

(** The step at the end of the sample session. *)
Lemma currentStep_range_witness :
  1 <= currentStep (app (Session.pageAfter Session.toEditedBanner)) <= 3.
Proof.
  apply currentStep_range.
  apply (session_reachable Session.toEditedBanner). vm_compute. reflexivity.
Defined.

(** The assets at the end of the sample session. *)
Lemma stored_images_are_png_witness :
  Forall (fun a => isPngDataUrl (CampaignAsset.image a))
    (campaignAssets (app (Session.pageAfter Session.toEditedBanner))).
Proof.
  apply stored_images_are_png.
  apply (session_reachable Session.toEditedBanner). vm_compute. reflexivity.
Defined.

(** The original banner shown once the sample assets are ready. *)
Lemma step4_always_renders_witness :
  exists banner,
    nth_error (campaignAssets (app (Session.pageAfter Session.toAssetsReady))) 2 = Some banner /\
    originalBannerImage (app (Session.pageAfter Session.toAssetsReady))
      = Some (CampaignAsset.image banner).
Proof.
  assert (Hreach : reachable (Session.pageAfter Session.toAssetsReady)).
  { apply (session_reachable Session.toAssetsReady). vm_compute. reflexivity. }
  assert (Hshown : step4_rendered (app (Session.pageAfter Session.toAssetsReady)) = true)
    by (vm_compute; reflexivity).
  destruct (step4_always_renders _ Hreach Hshown) as (banner & Hnth & Himage & _).
  exists banner. split; assumption.
Defined.

(** With the Facebook image missing the six sub-calls do not all succeed. *)
Lemma campaign_succeeds_iff_witness :
  sixSucceed (mkClosure (Some Session.photo) (campaignPrompts initialState Session.lessIsFresh))
    Session.facebookImageMissing = false.
Proof.
  destruct (sixSucceed (mkClosure (Some Session.photo)
              (campaignPrompts initialState Session.lessIsFresh))
              Session.facebookImageMissing) eqn:Hsix; [|reflexivity].
  apply campaign_succeeds_iff in Hsix as (_ & _ & (parts & blob & Hresp & Hfirst & _) & _).
  exfalso. injection Hresp as <-.
  destruct Hfirst as (before & part & rest & Heq & Hbefore & Hpart).
  destruct before as [|q [|q' before]]; cbn in Heq.
  - injection Heq as <- _. discriminate Hpart.
  - injection Heq as _ Heq. discriminate Heq.
  - injection Heq as _ Heq. discriminate Heq.
Defined.

(** The sample session with the product name emptied after the selection. *)
Lemma campaign_button_silent_noop_witness :
  step ClickGenerateCampaign
    (Session.pageAfter (Session.toAngleSelected ++ [ChangeProductName EmptyString]))
  = Some (Session.pageAfter (Session.toAngleSelected ++ [ChangeProductName EmptyString])).
Proof.
  apply campaign_button_silent_noop.
  - vm_compute. reflexivity.
  - vm_compute. reflexivity.
  - left. vm_compute. reflexivity.
Defined.

(** The requests of the sample campaign. *)
Lemma campaign_dispatches_six_witness :
  length (snd (generateCampaignAssets_start (app (Session.pageAfter Session.toAngleSelected))))
  = 6%nat.
Proof.
  assert (Hstart :
    generateCampaignAssets_start (app (Session.pageAfter Session.toAngleSelected)) =
    (fst (fst (generateCampaignAssets_start (app (Session.pageAfter Session.toAngleSelected)))),
     Some (mkClosure (Some Session.photo)
             (campaignPrompts (app (Session.pageAfter Session.toAngleSelected)) Session.lessIsFresh)),
     snd (generateCampaignAssets_start (app (Session.pageAfter Session.toAngleSelected)))))
    by (vm_compute; reflexivity).
  destruct (campaign_dispatches_six _ _ _ _ Hstart) as (photo & angle & _ & _ & _ & Hreqs & _).
  rewrite Hreqs. reflexivity.
Defined.

